(** * Shallow embedding of calculate.py and gmail_sender.py

    [divide_numbers] of [calculate.py] and the [GmailSender] class of
    [gmail_sender.py] are embedded as Rocq functions.  Python ints are
    integers and Python floats are binary64 numbers.  Python exceptions are
    values of a result type; the effects of [send_email] (console output, the
    SMTP connection, the calls made on the SMTP client) are threaded through an
    explicit state; the collaborators that the script does not implement (the
    SMTP server, the file system, the console, the serialiser of the email
    package) are the fields of a [World] record.

    The class is embedded twice.  [GmailSender] runs it over collaborators
    that fail in the ways the script provides for: a file that cannot be
    read, an SMTP command that the server rejects, a message that does not
    serialise.  [GmailSenderIO] runs the same code over collaborators that
    also fail in the ways the script does not provide for: a console that
    refuses a line, a body that the email package has to encode or cannot
    encode, a socket that smtplib closes before it raises. *)

From Stdlib Require Import String Ascii List ZArith NArith Bool Lia.
From Stdlib Require Import DecimalString SpecFloat.
Import ListNotations.
Local Open Scope string_scope.

(** ** calculate.py *)

Module Calculate.

Inductive exception : Type :=
| ValueError (msg : string)
| ZeroDivisionError (msg : string)
| OverflowError (msg : string).

Inductive result (A : Type) : Type :=
| Return (a : A)
| Raise (e : exception).
Arguments Return {A} a.
Arguments Raise {A} e.

(** Python floats are IEEE 754 binary64 numbers: 53 bits of precision,
    exponents below 1024. *)
Definition prec : Z := 53.
Definition emax : Z := 1024.

(** The numbers that the functions of calculate.py are called on. *)
Inductive number : Type :=
| PyInt (z : Z)
| PyFloat (x : spec_float).

Definition zero : spec_float := S754_zero false.

(** An int as an unrounded binary number. *)
Definition exact (z : Z) : spec_float :=
  match z with
  | Z0 => S754_zero false
  | Zpos p => S754_finite false p 0
  | Zneg p => S754_finite true p 0
  end.

(** [float(z)]: the nearest float, ties to even; an int that rounds beyond
    the largest float does not convert. *)
Definition float_of_int (z : Z) : result spec_float :=
  match binary_normalize prec emax z 0 false with
  | S754_infinity _ => Raise (OverflowError "int too large to convert to float")
  | x => Return x
  end.

(** [b == 0] *)
Definition eq_zero (b : number) : bool :=
  match b with
  | PyInt z => (z =? 0)%Z
  | PyFloat x => SFeqb x zero
  end.

(** [x / y] on floats: IEEE division, except that a zero divisor raises. *)
Definition float_truediv (x y : spec_float) : result number :=
  if SFeqb y zero then Raise (ZeroDivisionError "float division by zero")
  else Return (PyFloat (SFdiv prec emax x y)).

(** Python's [a / b] (true division).  Two ints give the float nearest to
    the exact quotient, and OverflowError when that is beyond the largest
    float; an int beside a float is converted first. *)
Definition truediv (a b : number) : result number :=
  match a, b with
  | PyInt x, PyInt y =>
      if (y =? 0)%Z then Raise (ZeroDivisionError "division by zero")
      else match SFdiv prec emax (exact x) (exact y) with
           | S754_infinity _ =>
               Raise (OverflowError "integer division result too large for a float")
           | q => Return (PyFloat q)
           end
  | PyInt x, PyFloat y =>
      match float_of_int x with
      | Return x' => float_truediv x' y
      | Raise e => Raise e
      end
  | PyFloat x, PyInt y =>
      match float_of_int y with
      | Return y' =>
          (* float(y) is zero exactly when y is *)
          if (y =? 0)%Z then Raise (ZeroDivisionError "float division by zero")
          else Return (PyFloat (SFdiv prec emax x y'))
      | Raise e => Raise e
      end
  | PyFloat x, PyFloat y => float_truediv x y
  end.

(** [[
def divide_numbers(a, b):
    if b == 0:
        raise ValueError("Cannot divide by zero")
    return a / b
]] *)
Definition divide_numbers (a b : number) : result number :=
  if eq_zero b then Raise (ValueError "Cannot divide by zero")
  else truediv a b.

End Calculate.

(** ** gmail_sender.py

    The class over collaborators that fail only in the ways the script
    provides for.  The console accepts every line; the body is kept as it is
    given, as the email package keeps ASCII text; the headers that the
    constructors of the email package add by themselves are left out; an
    SMTP call that raises leaves the socket open, as a command that the
    server rejects does. *)

Module GmailSender.

(** *** Exceptions

    The three [except] clauses of [send_email] and the two of [_attach_file]
    tell exceptions apart by class only.  [SMTPException] stands for every
    subclass of [smtplib.SMTPException] other than [SMTPAuthenticationError],
    [Exception] for every other subclass of Python's [Exception]. *)
Inductive exception_class : Type :=
| SMTPAuthenticationError
| SMTPException
| FileNotFoundError
| Exception.

Record exception : Type := mkException {
  exc_class : exception_class;
  exc_str : string           (* str(e) *)
}.

Inductive result (A : Type) : Type :=
| Return (a : A)
| Raise (e : exception).
Arguments Return {A} a.
Arguments Raise {A} e.

(** *** Messages of the email package

    A part records its content type, the headers set on it by the script
    (or by [encoders.encode_base64]) and its payload; bytes are Rocq
    strings, which are sequences of 8-bit characters.  The Content-Type and
    MIME-Version headers that the constructors of the email package add by
    themselves are constants of the content type, held here by the fields
    [maintype] and [subtype]. *)
Record MIMEPart : Type := mkPart {
  maintype : string;
  subtype : string;
  part_headers : list (string * string);
  part_payload : string
}.

Record MIMEMultipart : Type := mkMessage {
  headers : list (string * string);
  payload : list MIMEPart
}.

(** [MIMEMultipart()], without the Content-Type and MIME-Version headers
    that the constructor sets. *)
Definition MIMEMultipart_new : MIMEMultipart :=
  {| headers := []; payload := [] |}.

(** [message[name] = value]: the email package appends the header. *)
Definition setitem (message : MIMEMultipart) (name value : string) : MIMEMultipart :=
  {| headers := headers message ++ [(name, value)]; payload := payload message |}.

(** [message.attach(part)] *)
Definition attach (message : MIMEMultipart) (part : MIMEPart) : MIMEMultipart :=
  {| headers := headers message; payload := payload message ++ [part] |}.

(** [MIMEText(_text, _subtype)] for ASCII text, which is kept as it is. *)
Definition MIMEText (_text _subtype : string) : MIMEPart :=
  {| maintype := "text"; subtype := _subtype; part_headers := []; part_payload := _text |}.

(** [MIMEBase(_maintype, _subtype)] *)
Definition MIMEBase (_maintype _subtype : string) : MIMEPart :=
  {| maintype := _maintype; subtype := _subtype; part_headers := []; part_payload := "" |}.

(** [part.set_payload(data)] *)
Definition set_payload (part : MIMEPart) (data : string) : MIMEPart :=
  {| maintype := maintype part; subtype := subtype part;
     part_headers := part_headers part; part_payload := data |}.

(** [part.add_header(name, value)] and [part[name] = value] *)
Definition add_header (part : MIMEPart) (name value : string) : MIMEPart :=
  {| maintype := maintype part; subtype := subtype part;
     part_headers := part_headers part ++ [(name, value)];
     part_payload := part_payload part |}.

(** Header names compare without regard to case, as in [Message.get_all];
    a header that is absent has the empty list of values. *)
Definition ascii_lower (c : ascii) : ascii :=
  let n := nat_of_ascii c in
  if ((65 <=? n) && (n <=? 90))%nat then ascii_of_nat (n + 32) else c.

Fixpoint lower (s : string) : string :=
  match s with
  | EmptyString => EmptyString
  | String c rest => String (ascii_lower c) (lower rest)
  end.

Definition get_all (name : string) (hs : list (string * string)) : list string :=
  map snd (filter (fun h => String.eqb (lower (fst h)) (lower name)) hs).

(** [sep.join(items)] *)
Definition join (sep : string) (items : list string) : string :=
  String.concat sep items.

(** [os.path.basename(p)]: what follows the last slash. *)
Fixpoint basename_from (acc p : string) : string :=
  match p with
  | EmptyString => acc
  | String c rest =>
      if Ascii.eqb c "/" then basename_from "" rest
      else basename_from (acc ++ String c "") rest
  end.

Definition basename (p : string) : string := basename_from "" p.

(** [base64.encodebytes], which [encoders.encode_base64] applies to the
    payload: RFC 2045 base64, a newline after every 76 characters of output
    and after the last line. *)
Definition b64_alphabet : string :=
  "ABCDEFGHIJKLMNOPQRSTUVWXYZabcdefghijklmnopqrstuvwxyz0123456789+/".

Definition b64_digit (n : N) : ascii :=
  match String.get (N.to_nat n) b64_alphabet with
  | Some c => c
  | None => "="%char
  end.

Fixpoint b2a_base64 (data : string) : string :=
  match data with
  | EmptyString => ""
  | String a EmptyString =>
      let x := N_of_ascii a in
      String (b64_digit (N.shiftr x 2))
        (String (b64_digit (N.shiftl (N.land x 3) 4)) "==")
  | String a (String b EmptyString) =>
      let x := N_of_ascii a in
      let y := N_of_ascii b in
      String (b64_digit (N.shiftr x 2))
        (String (b64_digit (N.lor (N.shiftl (N.land x 3) 4) (N.shiftr y 4)))
           (String (b64_digit (N.shiftl (N.land y 15) 2)) "="))
  | String a (String b (String c rest)) =>
      let x := N_of_ascii a in
      let y := N_of_ascii b in
      let z := N_of_ascii c in
      String (b64_digit (N.shiftr x 2))
        (String (b64_digit (N.lor (N.shiftl (N.land x 3) 4) (N.shiftr y 4)))
           (String (b64_digit (N.lor (N.shiftl (N.land y 15) 2) (N.shiftr z 6)))
              (String (b64_digit (N.land z 63)) (b2a_base64 rest))))
  end.

Definition newline : string := String (ascii_of_nat 10) "".

(** [room] characters still fit on the current line of width [width]. *)
Fixpoint wrap_lines (width room : nat) (s : string) : string :=
  match s with
  | EmptyString => if (room =? width)%nat then "" else newline
  | String c rest =>
      match room with
      | O => newline ++ String c (wrap_lines width (width - 1) rest)
      | S room' => String c (wrap_lines width room' rest)
      end
  end.

Definition encodebytes (data : string) : string :=
  wrap_lines 76 76 (b2a_base64 data).

(** [encoders.encode_base64(part)] *)
Definition encode_base64 (part : MIMEPart) : MIMEPart :=
  add_header (set_payload part (encodebytes (part_payload part)))
    "Content-Transfer-Encoding" "base64".

(** *** Collaborators and state

    The outcome of every call that leaves the script is a field of the
    world: the SMTP client (constructor, [starttls], [login], [sendmail],
    [quit]), reading a file, and [message.as_string()].  [None] is a normal
    return of an SMTP call, [Some e] the exception it raises. *)
Record World : Type := mkWorld {
  read_file : string -> result string;
  SMTP_connect : string -> Z -> option exception;
  SMTP_starttls : option exception;
  SMTP_login : string -> string -> option exception;
  SMTP_sendmail : string -> list string -> string -> option exception;
  SMTP_quit : option exception;
  as_string : MIMEMultipart -> result string
}.

(** The connection of the [server] object of one run of [send_email]. *)
Inductive connection : Type :=
| NotConnected
| Connected
| Closed.

(** What a run changes: the lines printed, the connection, and the
    arguments of the calls of [server.sendmail]. *)
Record state : Type := mkState {
  stdout : list string;
  server : connection;
  sendmail_calls : list (string * list string * string)
}.

Definition initial_state : state :=
  {| stdout := []; server := NotConnected; sendmail_calls := [] |}.

(** Computations that read and change the state and may raise. *)
Definition M (A : Type) : Type := state -> result A * state.

Definition ret {A : Type} (a : A) : M A := fun s => (Return a, s).

Definition bind {A B : Type} (c : M A) (k : A -> M B) : M B :=
  fun s =>
    match c s with
    | (Return a, s') => k a s'
    | (Raise e, s') => (Raise e, s')
    end.

(** [try: c  except ... as e: handler e] *)
Definition try_except {A : Type} (c : M A) (handler : exception -> M A) : M A :=
  fun s =>
    match c s with
    | (Return a, s') => (Return a, s')
    | (Raise e, s') => handler e s'
    end.

Notation "x <- c ;; k" := (bind c (fun x => k))
  (at level 61, c at next level, right associativity).
Notation "c ;; k" := (bind c (fun _ => k))
  (at level 61, right associativity).

(** [print(line)] on a console that accepts the line. *)
Definition print (line : string) : M unit :=
  fun s =>
    (Return tt,
     {| stdout := stdout s ++ [line]; server := server s;
        sendmail_calls := sendmail_calls s |}).

(** An SMTP call that leaves the connection as it is: a command that the
    server rejects (a 535 reply to AUTH, a 550 reply to RCPT) raises and the
    socket stays open. *)
Definition smtp_call (outcome : option exception) : M unit :=
  fun s =>
    match outcome with
    | None => (Return tt, s)
    | Some e => (Raise e, s)
    end.

(** [server = smtplib.SMTP(host, port)]: the connection exists once the
    constructor has returned. *)
Definition smtplib_SMTP (w : World) (host : string) (port : Z) : M unit :=
  fun s =>
    match SMTP_connect w host port with
    | None =>
        (Return tt,
         {| stdout := stdout s; server := Connected;
            sendmail_calls := sendmail_calls s |})
    | Some e => (Raise e, s)
    end.

(** [server.starttls()] *)
Definition server_starttls (w : World) : M unit :=
  smtp_call (SMTP_starttls w).

(** [server.login(user, password)] *)
Definition server_login (w : World) (user password : string) : M unit :=
  smtp_call (SMTP_login w user password).

(** [server.sendmail(from_addr, to_addrs, msg)]: the call is recorded with
    its arguments, whatever its outcome. *)
Definition server_sendmail (w : World) (from_addr : string)
    (to_addrs : list string) (msg : string) : M unit :=
  fun s =>
    smtp_call (SMTP_sendmail w from_addr to_addrs msg)
      {| stdout := stdout s; server := server s;
         sendmail_calls := sendmail_calls s ++ [(from_addr, to_addrs, msg)] |}.

(** [server.quit()]: smtplib closes the socket, also when the QUIT command
    itself fails. *)
Definition server_quit (w : World) : M unit :=
  fun s =>
    smtp_call (SMTP_quit w)
      {| stdout := stdout s; server := Closed;
         sendmail_calls := sendmail_calls s |}.

(** [message.as_string()] *)
Definition message_as_string (w : World) (message : MIMEMultipart) : M string :=
  fun s => (as_string w message, s).

(** [with open(file_path, 'rb') as file: ... file.read()] *)
Definition open_read (w : World) (file_path : string) : M string :=
  fun s => (read_file w file_path, s).

(** *** The class GmailSender *)

Definition SMTP_SERVER : string := "smtp.gmail.com".
Definition SMTP_PORT : Z := 587.

(** [__init__] stores the two credentials. *)
Record GmailSender : Type := mkGmailSender {
  sender_email : string;
  password : string
}.

(** An [Optional[List[str]]] argument under [if x:] is true when it is a
    list with an element. *)
Definition truthy (x : option (list string)) : bool :=
  match x with
  | Some (_ :: _) => true
  | _ => false
  end.

Definition items (x : option (list string)) : list string :=
  match x with
  | Some l => l
  | None => []
  end.

(** [[
def _attach_file(self, message, file_path):
    try:
        with open(file_path, 'rb') as file:
            part = MIMEBase('application', 'octet-stream')
            part.set_payload(file.read())
        encoders.encode_base64(part)
        part.add_header('Content-Disposition',
                        f'attachment; filename= {os.path.basename(file_path)}')
        message.attach(part)
        print(f"  Attached: {os.path.basename(file_path)}")
    except FileNotFoundError:
        print(f"  Warning: File not found: {file_path}")
    except Exception as e:
        print(f"  Warning: Could not attach {file_path}: {str(e)}")
]]
    The message is mutated in place by the script; here the function
    returns it. *)
Definition _attach_file (w : World) (message : MIMEMultipart)
    (file_path : string) : M MIMEMultipart :=
  try_except
    (data <- open_read w file_path ;;
     let part := MIMEBase "application" "octet-stream" in
     let part := set_payload part data in
     let part := encode_base64 part in
     let part := add_header part "Content-Disposition"
                   ("attachment; filename= " ++ basename file_path) in
     let message := attach message part in
     print ("  Attached: " ++ basename file_path) ;;
     ret message)
    (fun e =>
       match exc_class e with
       | FileNotFoundError =>
           print ("  Warning: File not found: " ++ file_path) ;;
           ret message
       | _ =>
           print ("  Warning: Could not attach " ++ file_path ++ ": " ++ exc_str e) ;;
           ret message
       end).

(** [for file_path in attachments: self._attach_file(message, file_path)] *)
Fixpoint attach_files (w : World) (message : MIMEMultipart)
    (attachments : list string) : M MIMEMultipart :=
  match attachments with
  | [] => ret message
  | file_path :: rest =>
      message <- _attach_file w message file_path ;;
      attach_files w message rest
  end.

(** Lines 64 to 81 of [send_email]: the message container, its headers, the
    body part and the attachments. *)
Definition compose (w : World) (self : GmailSender)
    (recipient_email subject message_body : string) (is_html : bool)
    (cc attachments : option (list string)) : M MIMEMultipart :=
  let message := MIMEMultipart_new in
  let message := setitem message "From" (sender_email self) in
  let message := setitem message "To" recipient_email in
  let message := setitem message "Subject" subject in
  let message :=
    if truthy cc then setitem message "Cc" (join ", " (items cc)) else message in
  let msg_type := if is_html then "html" else "plain" in
  let message := attach message (MIMEText message_body msg_type) in
  if truthy attachments then attach_files w message (items attachments)
  else ret message.

(** Lines 83 to 88 of [send_email]: the recipient list (To + CC + BCC). *)
Definition recipients (recipient_email : string)
    (cc bcc : option (list string)) : list string :=
  let recipients := [recipient_email] in
  let recipients := if truthy cc then (recipients ++ items cc)%list else recipients in
  let recipients := if truthy bcc then (recipients ++ items bcc)%list else recipients in
  recipients.

(** The [try] block of [send_email]. *)
Definition send_email_try (w : World) (self : GmailSender)
    (recipient_email subject message_body : string) (is_html : bool)
    (cc bcc attachments : option (list string)) : M bool :=
  message <- compose w self recipient_email subject message_body is_html
               cc attachments ;;
  let recipients := recipients recipient_email cc bcc in
  print ("Connecting to " ++ SMTP_SERVER ++ ":"
         ++ NilZero.string_of_int (Z.to_int SMTP_PORT) ++ "...") ;;
  smtplib_SMTP w SMTP_SERVER SMTP_PORT ;;
  print "Starting TLS encryption..." ;;
  server_starttls w ;;
  print "Logging in..." ;;
  server_login w (sender_email self) (password self) ;;
  print "Sending email..." ;;
  data <- message_as_string w message ;;
  server_sendmail w (sender_email self) recipients data ;;
  server_quit w ;;
  print ("✓ Email sent successfully to " ++ recipient_email) ;;
  ret true.

(** The three [except] clauses of [send_email], tried in order. *)
Definition send_email_except (e : exception) : M bool :=
  match exc_class e with
  | SMTPAuthenticationError =>
      print "✗ Authentication failed. Please check your email and App Password." ;;
      print "  Make sure you're using an App Password, not your regular Gmail password." ;;
      ret false
  | SMTPException =>
      print ("✗ SMTP error occurred: " ++ exc_str e) ;;
      ret false
  | _ =>
      print ("✗ An error occurred: " ++ exc_str e) ;;
      ret false
  end.

(** [GmailSender.send_email] *)
Definition send_email (w : World) (self : GmailSender)
    (recipient_email subject message_body : string) (is_html : bool)
    (cc bcc attachments : option (list string)) : M bool :=
  try_except
    (send_email_try w self recipient_email subject message_body is_html
       cc bcc attachments)
    send_email_except.

End GmailSender.

(** ** Concrete worlds

    Test doubles for the collaborators, on which the scenarios below run. *)

Module Scenarios.
Import GmailSender.

(** A serialiser for the test worlds: header lines, then the payloads. *)
Definition render (message : MIMEMultipart) : string :=
  String.concat "" (map (fun h => fst h ++ ": " ++ snd h ++ newline) (headers message))
  ++ newline
  ++ String.concat newline (map part_payload (payload message)).

(** One file exists; a second path is a directory; nothing else exists. *)
Definition files (path : string) : result string :=
  if String.eqb path "/home/me/report.txt" then Return "Hello"
  else if String.eqb path "/home/me" then
    Raise (mkException Exception "[Errno 21] Is a directory: '/home/me'")
  else
    Raise (mkException FileNotFoundError
             ("[Errno 2] No such file or directory: '" ++ path ++ "'")).

(** Every SMTP call succeeds. *)
Definition accepting_world : World :=
  {| read_file := files;
     SMTP_connect := fun _ _ => None;
     SMTP_starttls := None;
     SMTP_login := fun _ _ => None;
     SMTP_sendmail := fun _ _ _ => None;
     SMTP_quit := None;
     as_string := fun message => Return (render message) |}.

(** The server rejects the credentials. *)
Definition auth_rejecting_world : World :=
  {| read_file := files;
     SMTP_connect := fun _ _ => None;
     SMTP_starttls := None;
     SMTP_login := fun _ _ =>
       Some (mkException SMTPAuthenticationError
               "(535, b'5.7.8 Username and Password not accepted')");
     SMTP_sendmail := fun _ _ _ => None;
     SMTP_quit := None;
     as_string := fun message => Return (render message) |}.


(** The serialiser fails. *)
Definition unserialisable_world : World :=
  {| read_file := files;
     SMTP_connect := fun _ _ => None;
     SMTP_starttls := None;
     SMTP_login := fun _ _ => None;
     SMTP_sendmail := fun _ _ _ => None;
     SMTP_quit := None;
     as_string := fun _ =>
       Raise (mkException Exception "header value appears to contain an embedded header") |}.

Definition me : GmailSender :=
  {| sender_email := "me@gmail.com"; password := "app-password" |}.

End Scenarios.

(** ** Observations on runs of the sender

    The vocabulary in which the properties of [compose] and [send_email]
    are stated. *)

Module Observations.
Import GmailSender.

(** The state after [lines] have been printed. *)
Definition printed (lines : list string) (s : state) : state :=
  {| stdout := stdout s ++ lines; server := server s;
     sendmail_calls := sendmail_calls s |}.

(** The file at [path] can be opened and read. *)
Definition readable (w : World) (path : string) : bool :=
  match read_file w path with
  | Return _ => true
  | Raise _ => false
  end.

(** [part] is the attachment made of the file at [path]: a binary part
    named by the base name of the path, marked as an attachment, whose
    payload is the content of the file in base64. *)
Definition attachment_for (w : World) (path : string) (part : MIMEPart) : Prop :=
  exists data,
    read_file w path = Return data /\
    maintype part = "application" /\
    subtype part = "octet-stream" /\
    get_all "Content-Disposition" (part_headers part)
      = ["attachment; filename= " ++ basename path] /\
    get_all "Content-Transfer-Encoding" (part_headers part) = ["base64"] /\
    part_payload part = encodebytes data.

(** A printed line is a warning. *)
Definition is_warning (line : string) : bool :=
  prefix "  Warning: " line.

(** [line] is what [_attach_file] prints for [path]. *)
Definition report_for (w : World) (path line : string) : Prop :=
  match read_file w path with
  | Return _ => line = "  Attached: " ++ basename path
  | Raise e =>
      match exc_class e with
      | FileNotFoundError => line = "  Warning: File not found: " ++ path
      | _ => line = "  Warning: Could not attach " ++ path ++ ": " ++ exc_str e
      end
  end.

(** The body part of a message is its text part. *)
Definition is_body_part (part : MIMEPart) : bool :=
  String.eqb (maintype part) "text".

(** [a] occurs in the header value [value]. *)
Definition occurs_in (a value : string) : bool :=
  match index 0 a value with
  | Some _ => true
  | None => false
  end.


(** The error kinds of the specification, and the kind of an exception
    according to the [except] clause of [send_email] that handles it. *)
Inductive error_kind : Type :=
| AuthenticationFailure
| TransportFailure
| UnclassifiedFailure.

Definition classify (e : exception) : error_kind :=
  match exc_class e with
  | SMTPAuthenticationError => AuthenticationFailure
  | SMTPException => TransportFailure
  | _ => UnclassifiedFailure
  end.

(** The status message of each error kind. *)
Definition failure_report (e : exception) : list string :=
  match classify e with
  | AuthenticationFailure =>
      ["✗ Authentication failed. Please check your email and App Password.";
       "  Make sure you're using an App Password, not your regular Gmail password."]
  | TransportFailure => ["✗ SMTP error occurred: " ++ exc_str e]
  | UnclassifiedFailure => ["✗ An error occurred: " ++ exc_str e]
  end.

(** The headers that [compose] builds from the sender, the recipient, the
    subject and the cc list. *)
Definition visible_headers (self : GmailSender) (recipient_email subject : string)
    (cc : option (list string)) : list (string * string) :=
  [("From", sender_email self); ("To", recipient_email); ("Subject", subject)]
  ++ (if truthy cc then [("Cc", join ", " (items cc))] else []).

End Observations.

(** ** gmail_sender.py: the function main *)

Module Main.
Import GmailSender.





Definition quote : string := String (ascii_of_nat 34) "".





End Main.

(** ** Further observations *)

Module Observations2.
Import GmailSender.

(** The string has a slash in it. *)
Fixpoint has_slash (s : string) : bool :=
  match s with
  | EmptyString => false
  | String c rest => Ascii.eqb c "/" || has_slash rest
  end.

(** The first progress line of a run of [send_email]. *)
Definition connecting_line : string := "Connecting to smtp.gmail.com:587...".

(** The line that [send_email] prints when it has succeeded. *)
Definition success_line (recipient_email : string) : string :=
  "✓ Email sent successfully to " ++ recipient_email.




End Observations2.

(** ** Reading base64

    The script encodes and never decodes.  The decoder of RFC 2045 is
    written here from the standard, not from the encoder, to say what an
    encoded payload stands for. *)

Module Base64.
Import GmailSender.

(** The value of a character of the base64 alphabet of RFC 2045:
    A-Z, a-z, 0-9, plus and slash stand for 0 to 63. *)
Definition b64_value (c : ascii) : option N :=
  let n := N_of_ascii c in
  if ((65 <=? n) && (n <=? 90))%N then Some (n - 65)%N
  else if ((97 <=? n) && (n <=? 122))%N then Some (n - 71)%N
  else if ((48 <=? n) && (n <=? 57))%N then Some (n + 4)%N
  else if (n =? 43)%N then Some 62%N
  else if (n =? 47)%N then Some 63%N
  else None.

Definition pad : ascii := "="%char.

(** Four characters stand for three bytes; one or two pad characters end
    a text whose length is not a multiple of three. *)
Fixpoint a2b_base64 (s : string) : option string :=
  match s with
  | EmptyString => Some ""
  | String c1 (String c2 (String c3 (String c4 rest))) =>
      match b64_value c1, b64_value c2 with
      | Some v1, Some v2 =>
          let b1 := ascii_of_N (N.lor (N.shiftl v1 2) (N.shiftr v2 4)) in
          if Ascii.eqb c3 pad then
            if Ascii.eqb c4 pad && String.eqb rest "" then Some (String b1 "")
            else None
          else
            match b64_value c3 with
            | Some v3 =>
                let b2 := ascii_of_N (N.lor (N.shiftl (N.land v2 15) 4) (N.shiftr v3 2)) in
                if Ascii.eqb c4 pad then
                  if String.eqb rest "" then Some (String b1 (String b2 ""))
                  else None
                else
                  match b64_value c4 with
                  | Some v4 =>
                      let b3 := ascii_of_N (N.lor (N.shiftl (N.land v3 3) 6) v4) in
                      match a2b_base64 rest with
                      | Some bytes => Some (String b1 (String b2 (String b3 bytes)))
                      | None => None
                      end
                  | None => None
                  end
            | None => None
            end
      | _, _ => None
      end
  | _ => None
  end.

(** Line breaks carry no data. *)
Fixpoint remove_newlines (s : string) : string :=
  match s with
  | EmptyString => ""
  | String c rest =>
      if Ascii.eqb c (ascii_of_nat 10) then remove_newlines rest
      else String c (remove_newlines rest)
  end.

(** The bytes that a base64 text stands for, if it is one. *)
Definition decodebytes (s : string) : option string :=
  a2b_base64 (remove_newlines s).

(** The text has a line break in it. *)
Fixpoint has_newline (s : string) : bool :=
  match s with
  | EmptyString => false
  | String c rest => Ascii.eqb c (ascii_of_nat 10) || has_newline rest
  end.

End Base64.

(** The six-bit values that the encoder takes out of one byte or two, and
    the checks on them that hold of every byte. *)

Module Base64Bits.
Import GmailSender Base64.

Definition all_bytes : list ascii := map ascii_of_nat (seq 0 256).

(** The digit of a six-bit value is in the alphabet, with that value. *)
Definition digit_ok (n : N) : bool :=
  match b64_value (b64_digit n) with
  | Some m => N.eqb m n
  | None => false
  end
  && negb (Ascii.eqb (b64_digit n) pad)
  && negb (Ascii.eqb (b64_digit n) (ascii_of_nat 10)).

(** The six-bit values of the encoder, and how the decoder puts the bytes
    back together. *)
Definition hi (a : ascii) : N := N.shiftr (N_of_ascii a) 2.
Definition mid1 (a b : ascii) : N :=
  N.lor (N.shiftl (N.land (N_of_ascii a) 3) 4) (N.shiftr (N_of_ascii b) 4).
Definition mid2 (b c : ascii) : N :=
  N.lor (N.shiftl (N.land (N_of_ascii b) 15) 2) (N.shiftr (N_of_ascii c) 6).
Definition lo (c : ascii) : N := N.land (N_of_ascii c) 63.
Definition end1 (a : ascii) : N := N.shiftl (N.land (N_of_ascii a) 3) 4.
Definition end2 (b : ascii) : N := N.shiftl (N.land (N_of_ascii b) 15) 2.

Definition byte_ok (a : ascii) : bool :=
  (hi a <? 64)%N && (lo a <? 64)%N && (end1 a <? 64)%N && (end2 a <? 64)%N
  && Ascii.eqb (ascii_of_N (N.lor (N.shiftl (hi a) 2) (N.shiftr (end1 a) 4))) a
  && N.eqb (N.shiftr (end2 a) 2) (N.land (N_of_ascii a) 15)
  && Ascii.eqb (ascii_of_N (N.lor (N.shiftl (N.shiftr (N_of_ascii a) 4) 4)
                                  (N.land (N_of_ascii a) 15))) a
  && Ascii.eqb (ascii_of_N (N.lor (N.shiftl (N.shiftr (N_of_ascii a) 6) 6) (lo a))) a.

Definition pair_ok (a b : ascii) : bool :=
  (mid1 a b <? 64)%N && (mid2 a b <? 64)%N
  && Ascii.eqb (ascii_of_N (N.lor (N.shiftl (hi a) 2) (N.shiftr (mid1 a b) 4))) a
  && N.eqb (N.land (mid1 a b) 15) (N.shiftr (N_of_ascii b) 4)
  && N.eqb (N.shiftr (mid2 a b) 2) (N.land (N_of_ascii a) 15)
  && N.eqb (N.land (mid2 a b) 3) (N.shiftr (N_of_ascii b) 6).

End Base64Bits.

(** ** Text encodings

    A Rocq string is a sequence of bytes.  It stands for the Python [str]
    of which it is the UTF-8 encoding; a [str] with a lone surrogate has no
    UTF-8 encoding, and is written here as the ill-formed byte sequence
    that encoding it with surrogates passed through would give. *)

Module Encodings.

Definition byte_in (low high : N) (c : ascii) : bool :=
  let n := N_of_ascii c in ((low <=? n) && (n <=? high))%N.

(** [text.encode('us-ascii')] succeeds. *)
Fixpoint is_ascii (s : string) : bool :=
  match s with
  | EmptyString => true
  | String c rest => byte_in 0 127 c && is_ascii rest
  end.

Definition continuation (c : ascii) : bool := byte_in 128 191 c.

(** Well-formed UTF-8 (Unicode, table 3-7): [text.encode('utf-8')]
    succeeds. *)
Fixpoint utf8_valid (s : string) : bool :=
  match s with
  | EmptyString => true
  | String c1 rest =>
      if byte_in 0 127 c1 then utf8_valid rest
      else if byte_in 194 223 c1 then
        match rest with
        | String c2 r => continuation c2 && utf8_valid r
        | _ => false
        end
      else if byte_in 224 239 c1 then
        match rest with
        | String c2 (String c3 r) =>
            (if byte_in 224 224 c1 then byte_in 160 191 c2
             else if byte_in 237 237 c1 then byte_in 128 159 c2
             else continuation c2)
            && continuation c3 && utf8_valid r
        | _ => false
        end
      else if byte_in 240 244 c1 then
        match rest with
        | String c2 (String c3 (String c4 r)) =>
            (if byte_in 240 240 c1 then byte_in 144 191 c2
             else if byte_in 244 244 c1 then byte_in 128 143 c2
             else continuation c2)
            && continuation c3 && continuation c4 && utf8_valid r
        | _ => false
        end
      else false
  end.

End Encodings.

(** ** gmail_sender.py with the failures of its collaborators

    The class again, over collaborators that fail in every way the
    libraries can: [print] raises when the console refuses a line, the email
    package encodes the body or rejects it, and smtplib may close the socket
    before it raises.  The exceptions, messages, state and pure helpers are
    those of [GmailSender]. *)

Module GmailSenderIO.
Import GmailSender Encodings.

(** How a call on the SMTP client ends: it returns, or it raises, with the
    socket closed by smtplib first (a lost connection, a 421 reply) or left
    open (a rejected command). *)
Inductive smtp_outcome : Type :=
| Done
| Fails (e : exception) (socket_closed : bool).

Record World : Type := mkWorld {
  read_file : string -> result string;
  console : string -> option exception;
  SMTP_connect : string -> Z -> option exception;
  SMTP_starttls : smtp_outcome;
  SMTP_login : string -> string -> smtp_outcome;
  SMTP_sendmail : string -> list string -> string -> smtp_outcome;
  SMTP_quit : option exception;
  as_string : MIMEMultipart -> result string
}.

(** A value or an exception that does not depend on the state. *)
Definition lift {A : Type} (r : result A) : M A := fun s => (r, s).

(** [print(line)]: the line is written, or the console raises (an
    encoding that lacks a character of the line, a closed pipe) and
    nothing is written. *)
Definition print (w : World) (line : string) : M unit :=
  fun s =>
    match console w line with
    | None =>
        (Return tt,
         {| stdout := stdout s ++ [line]; server := server s;
            sendmail_calls := sendmail_calls s |})
    | Some e => (Raise e, s)
    end.

Definition quote : string := String (ascii_of_nat 34) "".

(** [MIMEMultipart()] *)
Definition MIMEMultipart_new : MIMEMultipart :=
  {| headers := [("Content-Type", "multipart/mixed"); ("MIME-Version", "1.0")];
     payload := [] |}.

(** [MIMEText(_text, _subtype)]: ASCII text is kept as it is; other text
    is carried as the base64 of its UTF-8 bytes; text that UTF-8 cannot
    encode raises UnicodeEncodeError. *)
Definition MIMEText (_text _subtype : string) : result MIMEPart :=
  if is_ascii _text then
    Return {| maintype := "text"; subtype := _subtype;
              part_headers :=
                [("Content-Type",
                  "text/" ++ _subtype ++ "; charset=" ++ quote ++ "us-ascii" ++ quote);
                 ("MIME-Version", "1.0");
                 ("Content-Transfer-Encoding", "7bit")];
              part_payload := _text |}
  else if utf8_valid _text then
    Return {| maintype := "text"; subtype := _subtype;
              part_headers :=
                [("Content-Type",
                  "text/" ++ _subtype ++ "; charset=" ++ quote ++ "utf-8" ++ quote);
                 ("MIME-Version", "1.0");
                 ("Content-Transfer-Encoding", "base64")];
              part_payload := encodebytes _text |}
  else
    Raise (mkException Exception
             "'utf-8' codec can't encode character: surrogates not allowed").

(** [MIMEBase(_maintype, _subtype)] *)
Definition MIMEBase (_maintype _subtype : string) : MIMEPart :=
  {| maintype := _maintype; subtype := _subtype;
     part_headers :=
       [("Content-Type", _maintype ++ "/" ++ _subtype); ("MIME-Version", "1.0")];
     part_payload := "" |}.

(** A call on the client that may fail; the socket is closed when smtplib
    closed it before raising. *)
Definition smtp_call (outcome : smtp_outcome) : M unit :=
  fun s =>
    match outcome with
    | Done => (Return tt, s)
    | Fails e socket_closed =>
        (Raise e,
         if socket_closed then
           {| stdout := stdout s; server := Closed;
              sendmail_calls := sendmail_calls s |}
         else s)
    end.

(** [server = smtplib.SMTP(host, port)]: when the constructor raises there
    is no connection. *)
Definition smtplib_SMTP (w : World) (host : string) (port : Z) : M unit :=
  fun s =>
    match SMTP_connect w host port with
    | None =>
        (Return tt,
         {| stdout := stdout s; server := Connected;
            sendmail_calls := sendmail_calls s |})
    | Some e => (Raise e, s)
    end.

(** [server.starttls()] *)
Definition server_starttls (w : World) : M unit :=
  smtp_call (SMTP_starttls w).

(** [server.login(user, password)] *)
Definition server_login (w : World) (user password : string) : M unit :=
  smtp_call (SMTP_login w user password).

(** [server.sendmail(from_addr, to_addrs, msg)]: the call is recorded with
    its arguments, whatever its outcome. *)
Definition server_sendmail (w : World) (from_addr : string)
    (to_addrs : list string) (msg : string) : M unit :=
  fun s =>
    smtp_call (SMTP_sendmail w from_addr to_addrs msg)
      {| stdout := stdout s; server := server s;
         sendmail_calls := sendmail_calls s ++ [(from_addr, to_addrs, msg)] |}.

(** [server.quit()]: smtplib closes the socket, also when the QUIT command
    itself fails. *)
Definition server_quit (w : World) : M unit :=
  fun s =>
    match SMTP_quit w with
    | None =>
        (Return tt,
         {| stdout := stdout s; server := Closed;
            sendmail_calls := sendmail_calls s |})
    | Some e =>
        (Raise e,
         {| stdout := stdout s; server := Closed;
            sendmail_calls := sendmail_calls s |})
    end.

(** The two [except] clauses of [_attach_file], for the message as it is
    when the exception is raised. *)
Definition _attach_file_except (w : World) (message : MIMEMultipart)
    (file_path : string) (e : exception) : M MIMEMultipart :=
  match exc_class e with
  | FileNotFoundError =>
      print w ("  Warning: File not found: " ++ file_path) ;;
      ret message
  | _ =>
      print w ("  Warning: Could not attach " ++ file_path ++ ": " ++ exc_str e) ;;
      ret message
  end.

(** [_attach_file]: see [GmailSender._attach_file] for the source.  The
    part is attached before the line is printed, so a print that raises
    leaves it in the message; an exception raised by the print of a warning
    leaves the function. *)
Definition _attach_file (w : World) (message : MIMEMultipart)
    (file_path : string) : M MIMEMultipart :=
  fun s =>
    match read_file w file_path with
    | Raise e => _attach_file_except w message file_path e s
    | Return data =>
        let part := MIMEBase "application" "octet-stream" in
        let part := set_payload part data in
        let part := encode_base64 part in
        let part := add_header part "Content-Disposition"
                      ("attachment; filename= " ++ basename file_path) in
        let message := attach message part in
        match print w ("  Attached: " ++ basename file_path) s with
        | (Return _, s') => (Return message, s')
        | (Raise e, s') => _attach_file_except w message file_path e s'
        end
    end.

(** [for file_path in attachments: self._attach_file(message, file_path)] *)
Fixpoint attach_files (w : World) (message : MIMEMultipart)
    (attachments : list string) : M MIMEMultipart :=
  match attachments with
  | [] => ret message
  | file_path :: rest =>
      message <- _attach_file w message file_path ;;
      attach_files w message rest
  end.

(** Lines 64 to 81 of [send_email]. *)
Definition compose (w : World) (self : GmailSender)
    (recipient_email subject message_body : string) (is_html : bool)
    (cc attachments : option (list string)) : M MIMEMultipart :=
  let message := MIMEMultipart_new in
  let message := setitem message "From" (sender_email self) in
  let message := setitem message "To" recipient_email in
  let message := setitem message "Subject" subject in
  let message :=
    if truthy cc then setitem message "Cc" (join ", " (items cc)) else message in
  let msg_type := if is_html then "html" else "plain" in
  part <- lift (MIMEText message_body msg_type) ;;
  let message := attach message part in
  if truthy attachments then attach_files w message (items attachments)
  else ret message.

(** The [try] block of [send_email]. *)
Definition send_email_try (w : World) (self : GmailSender)
    (recipient_email subject message_body : string) (is_html : bool)
    (cc bcc attachments : option (list string)) : M bool :=
  message <- compose w self recipient_email subject message_body is_html
               cc attachments ;;
  let recipients := recipients recipient_email cc bcc in
  print w ("Connecting to " ++ SMTP_SERVER ++ ":"
           ++ NilZero.string_of_int (Z.to_int SMTP_PORT) ++ "...") ;;
  smtplib_SMTP w SMTP_SERVER SMTP_PORT ;;
  print w "Starting TLS encryption..." ;;
  server_starttls w ;;
  print w "Logging in..." ;;
  server_login w (sender_email self) (password self) ;;
  print w "Sending email..." ;;
  data <- lift (as_string w message) ;;
  server_sendmail w (sender_email self) recipients data ;;
  server_quit w ;;
  print w ("✓ Email sent successfully to " ++ recipient_email) ;;
  ret true.

(** The three [except] clauses of [send_email]; an exception raised by
    one of their prints leaves [send_email]. *)
Definition send_email_except (w : World) (e : exception) : M bool :=
  match exc_class e with
  | SMTPAuthenticationError =>
      print w "✗ Authentication failed. Please check your email and App Password." ;;
      print w "  Make sure you're using an App Password, not your regular Gmail password." ;;
      ret false
  | SMTPException =>
      print w ("✗ SMTP error occurred: " ++ exc_str e) ;;
      ret false
  | _ =>
      print w ("✗ An error occurred: " ++ exc_str e) ;;
      ret false
  end.

(** [GmailSender.send_email] *)
Definition send_email (w : World) (self : GmailSender)
    (recipient_email subject message_body : string) (is_html : bool)
    (cc bcc attachments : option (list string)) : M bool :=
  try_except
    (send_email_try w self recipient_email subject message_body is_html
       cc bcc attachments)
    (send_email_except w).

End GmailSenderIO.

(** ** Concrete worlds with consoles *)

Module ScenariosIO.
Import GmailSender Encodings GmailSenderIO.

(** A console whose encoding is ASCII. *)
Definition ascii_console (line : string) : option exception :=
  if is_ascii line then None
  else Some (mkException Exception
               "'ascii' codec can't encode character: ordinal not in range(128)").

(** A UTF-8 console; every SMTP call succeeds. *)
Definition accepting_world : World :=
  {| read_file := Scenarios.files;
     console := fun _ => None;
     SMTP_connect := fun _ _ => None;
     SMTP_starttls := Done;
     SMTP_login := fun _ _ => Done;
     SMTP_sendmail := fun _ _ _ => Done;
     SMTP_quit := None;
     as_string := fun message => Return (Scenarios.render message) |}.


(** An ASCII console; the server rejects the credentials. *)
Definition ascii_rejecting_world : World :=
  {| read_file := Scenarios.files;
     console := ascii_console;
     SMTP_connect := fun _ _ => None;
     SMTP_starttls := Done;
     SMTP_login := fun _ _ =>
       Fails (mkException SMTPAuthenticationError
                "(535, b'5.7.8 Username and Password not accepted')") false;
     SMTP_sendmail := fun _ _ _ => Done;
     SMTP_quit := None;
     as_string := fun message => Return (Scenarios.render message) |}.


(** An ASCII console; every SMTP call succeeds. *)
Definition ascii_world : World :=
  {| read_file := Scenarios.files;
     console := ascii_console;
     SMTP_connect := fun _ _ => None;
     SMTP_starttls := Done;
     SMTP_login := fun _ _ => Done;
     SMTP_sendmail := fun _ _ _ => Done;
     SMTP_quit := None;
     as_string := fun message => Return (Scenarios.render message) |}.

End ScenariosIO.

(** ** Observations on runs with failing collaborators *)

Module ObservationsIO.
Import GmailSender Observations Observations2 Encodings Base64 GmailSenderIO.


(** The file at [path] can be opened and read. *)
Definition readable (w : World) (path : string) : bool :=
  match read_file w path with
  | Return _ => true
  | Raise _ => false
  end.

Definition unreadable (w : World) (path : string) : bool :=
  negb (readable w path).

Fixpoint ends_with_slash (s : string) : bool :=
  match s with
  | EmptyString => false
  | String c EmptyString => Ascii.eqb c "/"
  | String _ rest => ends_with_slash rest
  end.

(** [name] is the base name of [path]: what follows its last slash. *)
Definition is_base_name (name path : string) : Prop :=
  has_slash name = false /\
  exists dir, path = dir ++ name /\ (dir = "" \/ ends_with_slash dir = true).

(** [part] is the attachment made of the file at [path]: a binary part,
    marked as an attachment under the base name of the path, whose payload
    is base64 text that decodes to the content of the file. *)
Definition attachment_of (w : World) (path : string) (part : MIMEPart) : Prop :=
  exists data name,
    read_file w path = Return data /\
    is_base_name name path /\
    get_all "Content-Type" (part_headers part) = ["application/octet-stream"] /\
    get_all "Content-Disposition" (part_headers part)
      = ["attachment; filename= " ++ name] /\
    get_all "Content-Transfer-Encoding" (part_headers part) = ["base64"] /\
    decodebytes (part_payload part) = Some data.

(** [line] is what [_attach_file] prints for [path] on a console that
    accepts it. *)
Definition report_of (w : World) (path line : string) : Prop :=
  match read_file w path with
  | Return _ => exists name, is_base_name name path /\ line = "  Attached: " ++ name
  | Raise e =>
      match exc_class e with
      | FileNotFoundError => line = "  Warning: File not found: " ++ path
      | _ => line = "  Warning: Could not attach " ++ path ++ ": " ++ exc_str e
      end
  end.

(** The console writes the line that [_attach_file] prints for each of
    [paths]. *)
Definition reports_printable (w : World) (paths : list string) : Prop :=
  forall path line, In path paths -> report_of w path line -> console w line = None.

(** Every step of the [try] block after composition completes: the
    progress lines are printed, the SMTP calls return, [quit] included, the
    message serialises, and the success line is printed. *)
Definition run_clean (w : World) (self : GmailSender) (recipient_email : string)
    (cc bcc : option (list string)) (message : MIMEMultipart) : Prop :=
  console w connecting_line = None /\
  SMTP_connect w SMTP_SERVER SMTP_PORT = None /\
  console w "Starting TLS encryption..." = None /\
  SMTP_starttls w = Done /\
  console w "Logging in..." = None /\
  SMTP_login w (sender_email self) (password self) = Done /\
  console w "Sending email..." = None /\
  (exists data,
     as_string w message = Return data /\
     SMTP_sendmail w (sender_email self) (recipients recipient_email cc bcc) data
       = Done) /\
  SMTP_quit w = None /\
  console w (success_line recipient_email) = None.

(** The run connects: the first progress line is printed and the
    constructor of the SMTP client returns. *)
Definition connection_opened (w : World) : Prop :=
  console w connecting_line = None /\
  SMTP_connect w SMTP_SERVER SMTP_PORT = None.

(** After connecting, the run gets as far as [server.quit()], which closes
    the connection whether it returns or raises. *)
Definition quit_reached (w : World) (self : GmailSender)
    (to_addrs : list string) (message : MIMEMultipart) : Prop :=
  console w "Starting TLS encryption..." = None /\
  SMTP_starttls w = Done /\
  console w "Logging in..." = None /\
  SMTP_login w (sender_email self) (password self) = Done /\
  console w "Sending email..." = None /\
  exists data,
    as_string w message = Return data /\
    SMTP_sendmail w (sender_email self) to_addrs data = Done.

(** After connecting, the run gets as far as a call on the SMTP client
    that raises with the socket closed by smtplib. *)
Definition socket_closed_on_error (w : World) (self : GmailSender)
    (to_addrs : list string) (message : MIMEMultipart) : Prop :=
  console w "Starting TLS encryption..." = None /\
  ((exists e, SMTP_starttls w = Fails e true) \/
   (SMTP_starttls w = Done /\
    console w "Logging in..." = None /\
    ((exists e, SMTP_login w (sender_email self) (password self) = Fails e true) \/
     (SMTP_login w (sender_email self) (password self) = Done /\
      console w "Sending email..." = None /\
      exists data e,
        as_string w message = Return data /\
        SMTP_sendmail w (sender_email self) to_addrs data = Fails e true)))).



(** The headers that [MIMEMultipart()] starts with. *)
Definition mime_headers : list (string * string) :=
  [("Content-Type", "multipart/mixed"); ("MIME-Version", "1.0")].

End ObservationsIO.

(** ** Properties of calculate.py *)

Module CalculateProofs.
Import Calculate.

(** What the division operator does once the divisor is known not to be
    zero: it returns a float, or an int operand is too large. *)
Lemma truediv_nonzero (a b : number) :
  eq_zero b = false ->
  (exists q, truediv a b = Return (PyFloat q)) \/
  (exists msg, truediv a b = Raise (OverflowError msg)).
Proof.
  intros Hb. destruct a as [x|x], b as [y|y]; cbn [eq_zero] in Hb; cbn [truediv].
  - rewrite Hb. destruct (SFdiv prec emax (exact x) (exact y));
      try (left; eexists; reflexivity). right. eexists. reflexivity.
  - unfold float_of_int, float_truediv. rewrite Hb.
    destruct (binary_normalize prec emax x 0 false);
      try (left; eexists; reflexivity). right. eexists. reflexivity.
  - unfold float_of_int. rewrite Hb.
    destruct (binary_normalize prec emax y 0 false);
      try (left; eexists; reflexivity). right. eexists. reflexivity.
  - unfold float_truediv. rewrite Hb. left. eexists. reflexivity.
Qed.




End CalculateProofs.

(** ** Properties of gmail_sender.py *)

Module GmailSenderProofs.
Import GmailSender Observations Scenarios.

(** *** Printing *)

Lemma printed_nil (s : state) : printed [] s = s.
Proof. destruct s; unfold printed; simpl. now rewrite app_nil_r. Qed.

Lemma printed_printed (l1 l2 : list string) (s : state) :
  printed l2 (printed l1 s) = printed (l1 ++ l2) s.
Proof. unfold printed; simpl. now rewrite app_assoc. Qed.

(** *** Attachments *)

(** A readable file becomes one attachment part. *)
Lemma _attach_file_readable (w : World) (message : MIMEMultipart)
    (path data : string) :
  read_file w path = Return data ->
  exists part,
    attachment_for w path part /\
    forall s, _attach_file w message path s =
              (Return (attach message part),
               printed ["  Attached: " ++ basename path] s).
Proof.
  intros Hread.
  exists (add_header
            (encode_base64 (set_payload (MIMEBase "application" "octet-stream") data))
            "Content-Disposition" ("attachment; filename= " ++ basename path)).
  split.
  - exists data. split; [exact Hread|]. repeat split.
  - intros s. unfold _attach_file, try_except, bind, open_read.
    rewrite Hread. reflexivity.
Qed.

(** An unreadable file leaves the message as it is and prints a warning. *)
Lemma _attach_file_unreadable (w : World) (message : MIMEMultipart)
    (path : string) (e : exception) :
  read_file w path = Raise e ->
  exists line,
    report_for w path line /\
    forall s, _attach_file w message path s = (Return message, printed [line] s).
Proof.
  intros Hread. unfold report_for. rewrite Hread.
  destruct (exc_class e) eqn:Hc; eexists; (split; [reflexivity|]);
    intros s; unfold _attach_file, try_except, bind, open_read;
    rewrite Hread, Hc; reflexivity.
Qed.

(** The loop over the attachments: the parts appended are the attachments
    of the readable paths, in order; one line is printed per path; neither
    depends on the state in which the loop starts. *)
Lemma attach_files_run (w : World) (paths : list string) :
  forall message,
  exists parts lines,
    Forall2 (attachment_for w) (filter (readable w) paths) parts /\
    Forall2 (report_for w) paths lines /\
    forall s, attach_files w message paths s =
              (Return {| headers := headers message;
                         payload := payload message ++ parts |},
               printed lines s).
Proof.
  induction paths as [|path paths IH]; intros message.
  - exists [], []. repeat split; try constructor.
    intros s. simpl. unfold ret. rewrite printed_nil, app_nil_r.
    now destruct message.
  - simpl. unfold readable at 1.
    destruct (read_file w path) as [data|e] eqn:Hread.
    + destruct (_attach_file_readable w message path data Hread)
        as (part & Hpart & Hrun).
      destruct (IH (attach message part)) as (parts & lines & Hparts & Hlines & Hrest).
      exists (part :: parts), (("  Attached: " ++ basename path) :: lines).
      split; [now constructor|]. split.
      * constructor; [|exact Hlines]. unfold report_for. now rewrite Hread.
      * intros s. unfold bind. rewrite Hrun, Hrest, printed_printed.
        simpl. now rewrite <- app_assoc.
    + destruct (_attach_file_unreadable w message path e Hread)
        as (line & Hline & Hrun).
      destruct (IH message) as (parts & lines & Hparts & Hlines & Hrest).
      exists parts, (line :: lines).
      split; [exact Hparts|]. split; [now constructor|].
      intros s. unfold bind. rewrite Hrun, Hrest, printed_printed. reflexivity.
Qed.

(** *** Composition *)

(** [compose] never raises.  The message has the visible headers, one text
    part with the body, then the attachments of the readable paths; the
    message and the lines printed do not depend on the starting state. *)
Lemma compose_run (w : World) (self : GmailSender)
    (recipient_email subject message_body : string) (is_html : bool)
    (cc attachments : option (list string)) :
  exists parts lines,
    Forall2 (attachment_for w) (filter (readable w) (items attachments)) parts /\
    Forall2 (report_for w) (items attachments) lines /\
    forall s,
      compose w self recipient_email subject message_body is_html cc attachments s =
      (Return {| headers := visible_headers self recipient_email subject cc;
                 payload := MIMEText message_body (if is_html then "html" else "plain")
                            :: parts |},
       printed lines s).
Proof.
  unfold compose.
  set (message := attach _ _).
  assert (Hm : message =
    {| headers := visible_headers self recipient_email subject cc;
       payload := [MIMEText message_body (if is_html then "html" else "plain")] |}).
  { unfold message, visible_headers. destruct (truthy cc); reflexivity. }
  clearbody message. subst message.
  destruct attachments as [[|path paths]|]; simpl truthy; cbv iota.
  - exists [], []. repeat split; try constructor.
    intros s. unfold ret. now rewrite printed_nil.
  - destruct (attach_files_run w (path :: paths)
      {| headers := visible_headers self recipient_email subject cc;
         payload := [MIMEText message_body (if is_html then "html" else "plain")] |})
      as (parts & lines & Hparts & Hlines & Hrun).
    exists parts, lines. repeat split; try assumption.
  - exists [], []. repeat split; try constructor.
    intros s. unfold ret. now rewrite printed_nil.
Qed.

(** *** Sending *)

(** Case analysis on the outcomes of the collaborators, in call order. *)
Ltac collaborator_cases w self :=
  destruct (SMTP_connect w SMTP_SERVER SMTP_PORT) as [?e|] eqn:?Hconnect;
  [|destruct (SMTP_starttls w) as [?e|] eqn:?Htls;
    [|destruct (SMTP_login w (sender_email self) (password self)) as [?e|] eqn:?Hlogin;
      [|match goal with
        | |- context [as_string w ?m] =>
            destruct (as_string w m) as [?data|?e] eqn:?Hser
        end;
        [match goal with
         | |- context [SMTP_sendmail w ?f ?t ?d] =>
             destruct (SMTP_sendmail w f t d) as [?e|] eqn:?Hsend
         end;
         [|destruct (SMTP_quit w) as [?e|] eqn:?Hquit]|]]]].

(** The handler turns every exception into [False] and a status message,
    and touches nothing else. *)
Lemma send_email_except_run (e : exception) (s : state) :
  send_email_except e s = (Return false, printed (failure_report e) s).
Proof.
  unfold send_email_except, failure_report, classify.
  destruct (exc_class e); unfold bind, print, ret, printed; simpl;
    rewrite <- ?app_assoc; reflexivity.
Qed.

Lemma send_email_of_try (w : World) (self : GmailSender)
    (recipient_email subject message_body : string) (is_html : bool)
    (cc bcc attachments : option (list string)) (s : state) :
  send_email w self recipient_email subject message_body is_html cc bcc attachments s =
  match send_email_try w self recipient_email subject message_body is_html
          cc bcc attachments s with
  | (Return b, s') => (Return b, s')
  | (Raise e, s') => (Return false, printed (failure_report e) s')
  end.
Proof.
  unfold send_email, try_except.
  destruct (send_email_try _ _ _ _ _ _ _ _ _ s) as [[b|e] s']; [reflexivity|].
  apply send_email_except_run.
Qed.


(** *** The connection *)

(** C1 fails on the code when the server rejects the credentials: the
    connection has been opened by the constructor, [login] raises, the
    handler returns [False], and [quit] is never called, so the connection
    is still open when [send_email] returns. *)
Theorem send_email_login_failure_leaves_connection_open (w : World)
    (self : GmailSender) (recipient_email subject message_body : string)
    (is_html : bool) (cc bcc attachments : option (list string))
    (s : state) (e : exception) :
  SMTP_connect w SMTP_SERVER SMTP_PORT = None ->
  SMTP_starttls w = None ->
  SMTP_login w (sender_email self) (password self) = Some e ->
  exists s',
    send_email w self recipient_email subject message_body is_html
      cc bcc attachments s = (Return false, s') /\
    server s' = Connected.
Proof.
  intros Hconnect Htls Hlogin.
  destruct (compose_run w self recipient_email subject message_body is_html
              cc attachments) as (parts & lines & _ & _ & Hcompose).
  rewrite send_email_of_try.
  unfold send_email_try, bind. rewrite Hcompose.
  unfold smtplib_SMTP, server_starttls, server_login, smtp_call, print.
  rewrite Hconnect, Htls, Hlogin. cbn beta iota.
  eexists. split; reflexivity.
Qed.

Lemma send_email_login_failure_witness :
  exists s',
    send_email auth_rejecting_world me "r@x.com" "Test" "Hello" false
      None None None initial_state = (Return false, s') /\
    server s' = Connected.
Proof.
  apply (send_email_login_failure_leaves_connection_open auth_rejecting_world me
           "r@x.com" "Test" "Hello" false None None None initial_state
           (mkException SMTPAuthenticationError
              "(535, b'5.7.8 Username and Password not accepted')"));
    reflexivity.
Defined.

(** Which runs close the connection: exactly those that reach [quit], that
    is, those in which everything up to and including [sendmail] succeeded. *)
Lemma send_email_closes_connection_iff (w : World) (self : GmailSender)
    (recipient_email subject message_body : string) (is_html : bool)
    (cc bcc attachments : option (list string)) (message : MIMEMultipart)
    (s s1 : state) :
  server s = NotConnected ->
  compose w self recipient_email subject message_body is_html cc attachments s
    = (Return message, s1) ->
  server (snd (send_email w self recipient_email subject message_body is_html
                 cc bcc attachments s)) = Closed <->
  (SMTP_connect w SMTP_SERVER SMTP_PORT = None /\
   SMTP_starttls w = None /\
   SMTP_login w (sender_email self) (password self) = None /\
   exists data,
     as_string w message = Return data /\
     SMTP_sendmail w (sender_email self) (recipients recipient_email cc bcc) data
       = None).
Proof.
  intros Hs Hcompose.
  assert (Hs1 : server s1 = NotConnected).
  { destruct (compose_run w self recipient_email subject message_body is_html
                cc attachments) as (parts & lines & _ & _ & Hrun).
    rewrite Hrun in Hcompose. inversion Hcompose; subst. exact Hs. }
  rewrite send_email_of_try.
  unfold send_email_try, bind. rewrite Hcompose.
  unfold smtplib_SMTP, server_starttls, server_login, server_sendmail,
    server_quit, message_as_string, smtp_call, print, ret.
  cbn beta iota zeta.
  collaborator_cases w self; cbn [snd server printed]; rewrite ?Hs1.
  5, 6: split; [intros _|reflexivity]; repeat split; exists data; now split.
  all: split; [discriminate|].
  all: intros (H1 & H2 & H3 & (d & H4 & H5)); congruence.
Qed.

(** *** The outcome *)




(** *** The recipient list *)

Lemma items_falsy (x : option (list string)) : truthy x = false -> items x = [].
Proof. destruct x as [[|a l]|]; simpl; [reflexivity|discriminate|reflexivity]. Qed.

Lemma recipients_app (recipient_email : string) (cc bcc : option (list string)) :
  recipients recipient_email cc bcc = (recipient_email :: items cc ++ items bcc)%list.
Proof.
  unfold recipients.
  destruct (truthy cc) eqn:Hcc, (truthy bcc) eqn:Hbcc;
    rewrite ?(items_falsy _ Hcc), ?(items_falsy _ Hbcc), ?app_nil_r; reflexivity.
Qed.

(** C3, as stated, fails: an address that is both the recipient and a cc
    address occurs twice in the recipient list. *)
Lemma recipients_keeps_duplicates :
  In "a@x.com" ["a@x.com"] /\
  In "a@x.com" (items (Some ["a@x.com"])) /\
  recipients "a@x.com" (Some ["a@x.com"]) None = ["a@x.com"; "a@x.com"] /\
  count_occ string_dec (recipients "a@x.com" (Some ["a@x.com"]) None) "a@x.com" = 2%nat.
Proof.
  split; [now left|]. split; [now left|]. split; reflexivity.
Qed.

(** C3, amended: the recipient list is the recipient address followed by
    the cc addresses and the bcc addresses, in order.  Every one of those
    addresses is in the list and nothing else is; an address occurs in the
    list as many times as it occurs in the three roles together. *)
Theorem recipients_spec (recipient_email : string) (cc bcc : option (list string)) :
  recipients recipient_email cc bcc = (recipient_email :: items cc ++ items bcc)%list /\
  (forall a, In a (recipients recipient_email cc bcc) <->
             a = recipient_email \/ In a (items cc) \/ In a (items bcc)) /\
  (forall a, count_occ string_dec (recipients recipient_email cc bcc) a =
             (count_occ string_dec [recipient_email] a
              + count_occ string_dec (items cc) a
              + count_occ string_dec (items bcc) a)%nat).
Proof.
  rewrite recipients_app. split; [reflexivity|]. split; intros a.
  - simpl. rewrite in_app_iff. intuition congruence.
  - change (recipient_email :: items cc ++ items bcc)%list
      with ([recipient_email] ++ items cc ++ items bcc)%list.
    rewrite !count_occ_app. lia.
Qed.

(** *** Headers *)



(** Scenario 2 of the specification. *)
Example join_two_cc : join ", " ["a@x.com"; "b@x.com"] = "a@x.com, b@x.com".
Proof. reflexivity. Qed.

End GmailSenderProofs.

(** ** Further properties of calculate.py *)

Module CalculateExtras.
Import Calculate.

(** X1: the guard of [divide_numbers] pre-empts the division operator: the
    only exceptions that leave the function are ValueError, for a zero
    divisor, and OverflowError, for a divisor that is not zero; it never
    raises ZeroDivisionError.  This holds for int and float arguments. *)
Theorem divide_numbers_exceptions (a b : number) (e : exception) :
  divide_numbers a b = Raise e ->
  (eq_zero b = true /\ e = ValueError "Cannot divide by zero") \/
  (eq_zero b = false /\ exists msg, e = OverflowError msg).
Proof.
  unfold divide_numbers.
  destruct (eq_zero b) eqn:Hb.
  - intros H. inversion H. now left.
  - intros H. right. split; [reflexivity|].
    destruct (CalculateProofs.truediv_nonzero a b Hb) as [[q Hq]|[m Hm]];
      rewrite H in *; [discriminate|]. inversion Hm. now exists m.
Qed.

Lemma divide_numbers_exceptions_witness :
  (eq_zero (PyInt 0) = true /\
   ValueError "Cannot divide by zero" = ValueError "Cannot divide by zero") \/
  (eq_zero (PyInt 0) = false /\
   exists msg, ValueError "Cannot divide by zero" = OverflowError msg).
Proof.
  apply (divide_numbers_exceptions (PyInt 7) (PyInt 0)). reflexivity.
Defined.

(** On ints, [b == 0] is equality with zero. *)
Lemma eq_zero_int (b : Z) : eq_zero (PyInt b) = true <-> b = 0%Z.
Proof. apply Z.eqb_eq. Qed.

End CalculateExtras.

(** ** Further properties of gmail_sender.py *)

Module GmailSenderExtras.
Import GmailSender Observations Observations2 Scenarios GmailSenderProofs.

(** *** The exits of send_email *)




(** *** Attachments *)








End GmailSenderExtras.

(** ** Properties of main *)

Module MainProofs.
Import GmailSender Observations Observations2 Scenarios Main.
Import GmailSenderProofs GmailSenderExtras.








End MainProofs.

(** ** The base64 round trip *)

Module Base64Proofs.
Import GmailSender Base64 Base64Bits.

Lemma in_all_bytes (a : ascii) : In a all_bytes.
Proof.
  unfold all_bytes. rewrite <- (ascii_nat_embedding a).
  apply in_map, in_seq. pose proof (nat_ascii_bounded a). lia.
Qed.

Lemma for_all_bytes (P : ascii -> bool) :
  forallb P all_bytes = true -> forall a, P a = true.
Proof. intros H a. exact (proj1 (forallb_forall P all_bytes) H a (in_all_bytes a)). Qed.

Lemma digits_ok (n : N) : (n < 64)%N -> digit_ok n = true.
Proof.
  intros Hn.
  assert (H : forallb digit_ok (map N.of_nat (seq 0 64)) = true) by (vm_compute; reflexivity).
  apply (proj1 (forallb_forall _ _) H).
  rewrite <- (N2Nat.id n). apply in_map, in_seq. lia.
Qed.

Lemma digit_value (n : N) : (n < 64)%N -> b64_value (b64_digit n) = Some n.
Proof.
  intros Hn. pose proof (digits_ok n Hn) as H. unfold digit_ok in H.
  apply andb_prop in H as [H _]. apply andb_prop in H as [H _].
  destruct (b64_value (b64_digit n)) as [m|]; [|discriminate].
  apply N.eqb_eq in H. now subst.
Qed.

Lemma digit_not_pad (n : N) : (n < 64)%N -> Ascii.eqb (b64_digit n) pad = false.
Proof.
  intros Hn. pose proof (digits_ok n Hn) as H. unfold digit_ok in H.
  apply andb_prop in H as [H _]. apply andb_prop in H as [_ H].
  now apply negb_true_iff in H.
Qed.

Lemma digit_not_newline (n : N) :
  (n < 64)%N -> Ascii.eqb (b64_digit n) (ascii_of_nat 10) = false.
Proof.
  intros Hn. pose proof (digits_ok n Hn) as H. unfold digit_ok in H.
  apply andb_prop in H as [_ H]. now apply negb_true_iff in H.
Qed.

Lemma bytes_ok (a : ascii) : byte_ok a = true.
Proof. revert a. apply for_all_bytes. vm_compute. reflexivity. Qed.

Lemma pairs_ok (a b : ascii) : pair_ok a b = true.
Proof.
  revert b. apply for_all_bytes. revert a. apply for_all_bytes.
  vm_compute. reflexivity.
Qed.

Ltac unpack H :=
  repeat (apply andb_prop in H as [H ?]);
  repeat match goal with
         | X : (_ <? _)%N = true |- _ => apply N.ltb_lt in X
         | X : N.eqb _ _ = true |- _ => apply N.eqb_eq in X
         | X : Ascii.eqb _ _ = true |- _ => apply Ascii.eqb_eq in X
         end.

Ltac byte_facts a :=
  let H := fresh "H" in
  pose proof (bytes_ok a) as H; unfold byte_ok in H; unpack H.

Ltac pair_facts a b :=
  let H := fresh "H" in
  pose proof (pairs_ok a b) as H; unfold pair_ok in H; unpack H.

(** Decoding what [b2a_base64] wrote gives the bytes back. *)
Lemma a2b_b2a_base64 (data : string) :
  a2b_base64 (b2a_base64 data) = Some data /\
  (forall a, a2b_base64 (b2a_base64 (String a data)) = Some (String a data)) /\
  (forall a b,
     a2b_base64 (b2a_base64 (String a (String b data))) = Some (String a (String b data))).
Proof.
  induction data as [|c data (IH0 & IH1 & IH2)].
  - split; [reflexivity|]. split.
    + intros a. byte_facts a.
      cbn [b2a_base64 a2b_base64].
      change (N.shiftr (N_of_ascii a) 2) with (hi a).
      change (N.shiftl (N.land (N_of_ascii a) 3) 4) with (end1 a).
      rewrite !digit_value by assumption.
      unfold pad. rewrite !Ascii.eqb_refl. cbn [andb String.eqb]. congruence.
    + intros a b. byte_facts a. byte_facts b. pair_facts a b.
      cbn [b2a_base64 a2b_base64].
      change (N.shiftr (N_of_ascii a) 2) with (hi a).
      change (N.lor (N.shiftl (N.land (N_of_ascii a) 3) 4) (N.shiftr (N_of_ascii b) 4))
        with (mid1 a b).
      change (N.shiftl (N.land (N_of_ascii b) 15) 2) with (end2 b).
      rewrite !digit_value, !digit_not_pad by assumption.
      unfold pad. rewrite !Ascii.eqb_refl. cbn [andb String.eqb]. congruence.
  - split; [exact (IH1 c)|]. split; [exact (fun a => IH2 a c)|].
    intros a b. byte_facts a. byte_facts b. byte_facts c.
    pair_facts a b. pair_facts b c.
    cbn [b2a_base64].
    change (N.shiftr (N_of_ascii a) 2) with (hi a).
    change (N.lor (N.shiftl (N.land (N_of_ascii a) 3) 4) (N.shiftr (N_of_ascii b) 4))
      with (mid1 a b).
    change (N.lor (N.shiftl (N.land (N_of_ascii b) 15) 2) (N.shiftr (N_of_ascii c) 6))
      with (mid2 b c).
    change (N.land (N_of_ascii c) 63) with (lo c).
    cbn [a2b_base64].
    rewrite !digit_value, !digit_not_pad by assumption.
    rewrite IH0. congruence.
Qed.

(** What the encoder writes has no line break in it. *)
Lemma b2a_base64_one_line (data : string) :
  has_newline (b2a_base64 data) = false /\
  (forall a, has_newline (b2a_base64 (String a data)) = false) /\
  (forall a b, has_newline (b2a_base64 (String a (String b data))) = false).
Proof.
  induction data as [|c data (IH0 & IH1 & IH2)].
  - split; [reflexivity|]. split.
    + intros a. byte_facts a. cbn [b2a_base64 has_newline].
      change (N.shiftr (N_of_ascii a) 2) with (hi a).
      change (N.shiftl (N.land (N_of_ascii a) 3) 4) with (end1 a).
      rewrite !digit_not_newline by assumption. reflexivity.
    + intros a b. byte_facts a. byte_facts b. pair_facts a b.
      cbn [b2a_base64 has_newline].
      change (N.shiftr (N_of_ascii a) 2) with (hi a).
      change (N.lor (N.shiftl (N.land (N_of_ascii a) 3) 4) (N.shiftr (N_of_ascii b) 4))
        with (mid1 a b).
      change (N.shiftl (N.land (N_of_ascii b) 15) 2) with (end2 b).
      rewrite !digit_not_newline by assumption. reflexivity.
  - split; [exact (IH1 c)|]. split; [exact (fun a => IH2 a c)|].
    intros a b. byte_facts a. byte_facts b. byte_facts c.
    pair_facts a b. pair_facts b c.
    cbn [b2a_base64 has_newline].
    change (N.shiftr (N_of_ascii a) 2) with (hi a).
    change (N.lor (N.shiftl (N.land (N_of_ascii a) 3) 4) (N.shiftr (N_of_ascii b) 4))
      with (mid1 a b).
    change (N.lor (N.shiftl (N.land (N_of_ascii b) 15) 2) (N.shiftr (N_of_ascii c) 6))
      with (mid2 b c).
    change (N.land (N_of_ascii c) 63) with (lo c).
    rewrite !digit_not_newline by assumption. exact IH0.
Qed.

(** Taking the line breaks out of a wrapped text gives the text back. *)
Lemma remove_newlines_wrap_lines (width : nat) (s : string) :
  has_newline s = false ->
  forall room, remove_newlines (wrap_lines width room s) = s.
Proof.
  induction s as [|c s IH]; intros Hs room.
  - cbn [wrap_lines]. destruct (room =? width)%nat; reflexivity.
  - cbn [has_newline] in Hs. apply orb_false_elim in Hs as [Hc Hs].
    cbn [wrap_lines]. destruct room as [|room].
    + change (newline ++ String c (wrap_lines width (width - 1) s))
        with (String (ascii_of_nat 10) (String c (wrap_lines width (width - 1) s))).
      cbn [remove_newlines]. rewrite Ascii.eqb_refl, Hc. now rewrite IH.
    + cbn [remove_newlines]. rewrite Hc. now rewrite IH.
Qed.

(** The round trip: decoding the base64 text of some bytes gives the
    bytes. *)
Lemma decodebytes_encodebytes (data : string) :
  decodebytes (encodebytes data) = Some data.
Proof.
  unfold decodebytes, encodebytes.
  rewrite remove_newlines_wrap_lines by apply b2a_base64_one_line.
  apply a2b_b2a_base64.
Qed.

End Base64Proofs.

(** ** Properties of gmail_sender.py with failing collaborators *)

Module GmailSenderIOProofs.
Import GmailSender Observations Observations2 Encodings Base64 GmailSenderIO.
Import ObservationsIO ScenariosIO Base64Proofs.

(** *** Printing *)

Lemma print_accepted (w : World) (line : string) (s : state) :
  console w line = None -> print w line s = (Return tt, printed [line] s).
Proof. intros H. unfold print. now rewrite H. Qed.

Lemma print_refused (w : World) (line : string) (e : exception) (s : state) :
  console w line = Some e -> print w line s = (Raise e, s).
Proof. intros H. unfold print. now rewrite H. Qed.

Lemma printed_empty (s : state) : printed [] s = s.
Proof. destruct s; unfold printed; simpl. now rewrite app_nil_r. Qed.

Lemma printed_twice (l1 l2 : list string) (s : state) :
  printed l2 (printed l1 s) = printed (l1 ++ l2) s.
Proof. unfold printed; simpl. now rewrite app_assoc. Qed.

(** A run of [print] changes nothing but the output, to which it adds at
    most its line. *)
Lemma print_frame (w : World) (line : string) (s s' : state) (r : result unit) :
  print w line s = (r, s') ->
  server s' = server s /\ sendmail_calls s' = sendmail_calls s.
Proof.
  unfold print. destruct (console w line); intros H; inversion H; subst; auto.
Qed.

(** *** Base names *)

Lemma text_app_nil_r (x : string) : x ++ "" = x.
Proof. induction x as [|c x IH]; simpl; [reflexivity | now rewrite IH]. Qed.

Lemma text_app_assoc (x y z : string) : (x ++ y) ++ z = x ++ y ++ z.
Proof. induction x as [|c x IH]; simpl; [reflexivity | now rewrite IH]. Qed.

Lemma has_slash_append (x y : string) :
  has_slash (x ++ y) = has_slash x || has_slash y.
Proof.
  induction x as [|c x IH]; simpl; [reflexivity|].
  now rewrite IH, orb_assoc.
Qed.

Lemma ends_with_slash_append (x : string) : ends_with_slash (x ++ "/") = true.
Proof.
  induction x as [|c x IH]; [reflexivity|].
  simpl. destruct (x ++ "/") eqn:E; [|exact IH].
  destruct x; discriminate.
Qed.

(** [basename_from acc p] is the base name of what has been read so far,
    [pre ++ acc], followed by [p], when [acc] has no slash and [pre] is
    empty or ends with one. *)
Lemma basename_from_base_name (p : string) :
  forall pre acc,
    has_slash acc = false ->
    (pre = "" \/ ends_with_slash pre = true) ->
    is_base_name (basename_from acc p) (pre ++ acc ++ p).
Proof.
  induction p as [|c p IH]; intros pre acc Hacc Hpre; cbn [basename_from].
  - split; [exact Hacc|]. exists pre. rewrite text_app_nil_r. now split.
  - destruct (Ascii.eqb c "/") eqn:Hc.
    + apply Ascii.eqb_eq in Hc. subst c.
      replace (pre ++ acc ++ String "/" p)
        with ((pre ++ acc ++ "/") ++ "" ++ p)
        by (rewrite !text_app_assoc; reflexivity).
      apply IH; [reflexivity|]. right.
      rewrite <- text_app_assoc. apply ends_with_slash_append.
    + replace (pre ++ acc ++ String c p)
        with (pre ++ (acc ++ String c "") ++ p)
        by (rewrite !text_app_assoc; reflexivity).
      apply IH; [|exact Hpre].
      rewrite has_slash_append, Hacc. simpl. now rewrite Hc.
Qed.

Lemma basename_is_base_name (path : string) : is_base_name (basename path) path.
Proof.
  exact (basename_from_base_name path "" "" eq_refl (or_introl eq_refl)).
Qed.

(** *** Attachments *)

(** The part that [_attach_file] makes of the content of a file. *)
Lemma attachment_part (w : World) (path data : string) :
  read_file w path = Return data ->
  attachment_of w path
    (add_header (encode_base64 (set_payload (MIMEBase "application" "octet-stream") data))
       "Content-Disposition" ("attachment; filename= " ++ basename path)).
Proof.
  intros Hread. exists data, (basename path).
  split; [exact Hread|]. split; [apply basename_is_base_name|].
  repeat split; try reflexivity.
  cbn. apply decodebytes_encodebytes.
Qed.

Lemma attach_headers (message : MIMEMultipart) (part : MIMEPart) :
  headers (attach message part) = headers message.
Proof. reflexivity. Qed.

(** Whatever the console does, a run of [_attach_file] that returns has
    added at most one part, a binary one, and no header. *)
Lemma _attach_file_returns (w : World) (message message' : MIMEMultipart)
    (path : string) (s s' : state) :
  _attach_file w message path s = (Return message', s') ->
  headers message' = headers message /\
  exists parts,
    payload message' = (payload message ++ parts)%list /\
    Forall (fun part => is_body_part part = false) parts.
Proof.
  unfold _attach_file, _attach_file_except.
  destruct (read_file w path) as [data|e].
  - destruct (print w _ s) as [[[]|e] s1].
    + intros H. inversion H; subst. split; [reflexivity|].
      eexists. split; [reflexivity|]. repeat constructor.
    + destruct (exc_class e); unfold bind, ret;
        destruct (print w _ s1) as [[[]|e'] s2]; intros H; inversion H; subst;
        (split; [reflexivity|]); eexists; (split; [reflexivity|]);
        repeat constructor.
  - destruct (exc_class e); unfold bind, ret;
      destruct (print w _ s) as [[[]|e'] s2]; intros H; inversion H; subst;
      (split; [reflexivity|]); exists []; (split; [now rewrite app_nil_r|]);
      constructor.
Qed.

(** A run of [_attach_file] leaves the connection and the calls alone. *)
Lemma _attach_file_frame (w : World) (message : MIMEMultipart) (path : string)
    (s s' : state) (r : result MIMEMultipart) :
  _attach_file w message path s = (r, s') ->
  server s' = server s /\ sendmail_calls s' = sendmail_calls s.
Proof.
  assert (Hexcept : forall m e s0 r0 s0',
             _attach_file_except w m path e s0 = (r0, s0') ->
             server s0' = server s0 /\ sendmail_calls s0' = sendmail_calls s0).
  { intros m e s0 r0 s0'. unfold _attach_file_except.
    destruct (exc_class e); unfold bind, ret;
      destruct (print w _ s0) as [[[]|e'] s2] eqn:Hp; intros H; inversion H; subst;
      exact (print_frame _ _ _ _ _ Hp). }
  unfold _attach_file.
  destruct (read_file w path) as [data|e]; [|apply Hexcept].
  destruct (print w _ s) as [[[]|e] s1] eqn:Hp.
  - intros H. inversion H; subst. exact (print_frame _ _ _ _ _ Hp).
  - intros H. apply Hexcept in H. apply print_frame in Hp.
    destruct H, Hp. split; congruence.
Qed.

Lemma attach_files_returns (w : World) (paths : list string) :
  forall (message message' : MIMEMultipart) (s s' : state),
    attach_files w message paths s = (Return message', s') ->
    headers message' = headers message /\
    exists parts,
      payload message' = (payload message ++ parts)%list /\
      Forall (fun part => is_body_part part = false) parts.
Proof.
  induction paths as [|path paths IH]; intros message message' s s'; cbn [attach_files].
  - unfold ret. intros H. inversion H; subst. split; [reflexivity|].
    exists []. split; [now rewrite app_nil_r | constructor].
  - unfold bind.
    destruct (_attach_file w message path s) as [[m1|e] s1] eqn:H1; [|discriminate].
    intros H. apply _attach_file_returns in H1 as (Hh1 & parts1 & Hp1 & Hf1).
    apply IH in H as (Hh & parts & Hp & Hf).
    split; [congruence|].
    exists (parts1 ++ parts)%list. split.
    + rewrite Hp, Hp1. now rewrite app_assoc.
    + apply Forall_app. now split.
Qed.

Lemma attach_files_frame (w : World) (paths : list string) :
  forall (message : MIMEMultipart) (s s' : state) (r : result MIMEMultipart),
    attach_files w message paths s = (r, s') ->
    server s' = server s /\ sendmail_calls s' = sendmail_calls s.
Proof.
  induction paths as [|path paths IH]; intros message s s' r; cbn [attach_files].
  - unfold ret. intros H. inversion H; subst. now split.
  - unfold bind.
    destruct (_attach_file w message path s) as [[m1|e] s1] eqn:H1; intros H.
    + apply _attach_file_frame in H1. apply IH in H.
      destruct H, H1. split; congruence.
    + inversion H; subst. exact (_attach_file_frame _ _ _ _ _ _ H1).
Qed.

(** On a console that accepts the lines of the paths, [attach_files]
    returns: one part for each readable path, one line for each path. *)
Lemma attach_files_accepted (w : World) (paths : list string) :
  reports_printable w paths ->
  forall (message : MIMEMultipart) (s : state),
    exists parts lines,
      attach_files w message paths s
        = (Return {| headers := headers message;
                     payload := (payload message ++ parts)%list |},
           printed lines s) /\
      Forall2 (attachment_of w) (filter (readable w) paths) parts /\
      Forall2 (report_of w) paths lines.
Proof.
  induction paths as [|path paths IH]; intros Hconsole message s;
    cbn [attach_files filter].
  - exists [], []. rewrite app_nil_r, printed_empty. destruct message.
    repeat split; constructor.
  - assert (Hhead : forall line, report_of w path line -> console w line = None)
      by (intros line; apply Hconsole; now left).
    assert (Htail : reports_printable w paths)
      by (intros p line Hp; apply Hconsole; now right).
    specialize (IH Htail).
    unfold bind, _attach_file, _attach_file_except, readable.
    destruct (read_file w path) as [data|e] eqn:Hread.
    + assert (Hreport : report_of w path ("  Attached: " ++ basename path)).
      { unfold report_of. rewrite Hread. exists (basename path).
        split; [apply basename_is_base_name | reflexivity]. }
      rewrite print_accepted by exact (Hhead _ Hreport).
      match goal with
      | |- context [attach message ?p] =>
          destruct (IH (attach message p) (printed ["  Attached: " ++ basename path] s))
            as (parts & lines & Hrun & Hparts & Hlines);
          exists (p :: parts), (("  Attached: " ++ basename path) :: lines)
      end.
      rewrite Hrun, printed_twice. cbn [attach headers payload].
      rewrite <- app_assoc. split; [reflexivity|]. split.
      * constructor; [now apply attachment_part | exact Hparts].
      * constructor; [exact Hreport | exact Hlines].
    + assert (Hline : exists line,
                 (match exc_class e with
                  | FileNotFoundError =>
                      print w ("  Warning: File not found: " ++ path) ;; ret message
                  | _ =>
                      print w ("  Warning: Could not attach " ++ path ++ ": " ++ exc_str e) ;;
                      ret message
                  end) s = (Return message, printed [line] s) /\
                 report_of w path line).
      { assert (Hreport : forall line,
                   match exc_class e with
                   | FileNotFoundError => line = "  Warning: File not found: " ++ path
                   | _ => line = "  Warning: Could not attach " ++ path ++ ": "
                                 ++ exc_str e
                   end -> report_of w path line)
          by (intros line; unfold report_of; now rewrite Hread).
        destruct (exc_class e); unfold bind, ret;
          rewrite print_accepted by (apply Hhead, Hreport; reflexivity);
          eexists; (split; [reflexivity|]); apply Hreport; reflexivity. }
      destruct Hline as (line & Hrun1 & Hreport). rewrite Hrun1.
      destruct (IH message (printed [line] s)) as (parts & lines & Hrun & Hparts & Hlines).
      exists parts, (line :: lines). rewrite Hrun, printed_twice.
      split; [reflexivity|]. split; [exact Hparts|].
      constructor; assumption.
Qed.

(** *** The body part *)

Lemma is_ascii_utf8_valid (s : string) : is_ascii s = true -> utf8_valid s = true.
Proof.
  induction s as [|c s IH]; [reflexivity|].
  cbn [is_ascii utf8_valid]. intros H. apply andb_prop in H as [Hc Hs].
  rewrite Hc. now apply IH.
Qed.

Lemma MIMEText_returns (text sub : string) :
  utf8_valid text = true -> exists part, MIMEText text sub = Return part.
Proof.
  intros H. unfold MIMEText. rewrite H.
  destruct (is_ascii text); eexists; reflexivity.
Qed.

Lemma MIMEText_raises (text sub : string) :
  utf8_valid text = false -> exists e, MIMEText text sub = Raise e.
Proof.
  intros H. unfold MIMEText. rewrite H.
  destruct (is_ascii text) eqn:Ha; [|eexists; reflexivity].
  apply is_ascii_utf8_valid in Ha. congruence.
Qed.

(** What [MIMEText] makes of a text, when it makes a part of it. *)
Lemma MIMEText_part (text sub : string) (part : MIMEPart) :
  MIMEText text sub = Return part ->
  is_body_part part = true /\
  subtype part = sub /\
  (is_ascii text = true ->
   part_payload part = text /\
   get_all "Content-Type" (part_headers part)
     = ["text/" ++ sub ++ "; charset=" ++ quote ++ "us-ascii" ++ quote] /\
   get_all "Content-Transfer-Encoding" (part_headers part) = ["7bit"]) /\
  (is_ascii text = false ->
   utf8_valid text = true /\
   decodebytes (part_payload part) = Some text /\
   get_all "Content-Type" (part_headers part)
     = ["text/" ++ sub ++ "; charset=" ++ quote ++ "utf-8" ++ quote] /\
   get_all "Content-Transfer-Encoding" (part_headers part) = ["base64"]).
Proof.
  unfold MIMEText.
  destruct (is_ascii text) eqn:Ha; [|destruct (utf8_valid text) eqn:Hu];
    intros H; inversion H; subst; clear H.
  - repeat split; try reflexivity; discriminate.
  - split; [reflexivity|]. split; [reflexivity|]. split; [discriminate|].
    intros _. split; [reflexivity|]. split; [|split; reflexivity].
    cbn [part_payload]. apply decodebytes_encodebytes.
Qed.

(** *** Composition *)

Lemma compose_raises (w : World) (self : GmailSender)
    (recipient_email subject message_body : string) (is_html : bool)
    (cc attachments : option (list string)) (s : state) (e : exception) :
  MIMEText message_body (if is_html then "html" else "plain") = Raise e ->
  compose w self recipient_email subject message_body is_html cc attachments s
    = (Raise e, s).
Proof. intros H. unfold compose, bind, lift. now rewrite H. Qed.

(** The message of a run of [compose] that returns, whatever the console
    and the file system do. *)
Lemma compose_returns (w : World) (self : GmailSender)
    (recipient_email subject message_body : string) (is_html : bool)
    (cc attachments : option (list string)) (s s' : state)
    (message : MIMEMultipart) :
  compose w self recipient_email subject message_body is_html cc attachments s
    = (Return message, s') ->
  exists part parts,
    MIMEText message_body (if is_html then "html" else "plain") = Return part /\
    headers message
      = (mime_headers ++ visible_headers self recipient_email subject cc)%list /\
    payload message = part :: parts /\
    Forall (fun p => is_body_part p = false) parts.
Proof.
  unfold compose, bind, lift.
  destruct (MIMEText message_body (if is_html then "html" else "plain"))
    as [part|e] eqn:Hpart; [|discriminate].
  intros H. exists part.
  assert (Hmessage :
            exists parts,
              headers message
                = headers (attach
                     (if truthy cc
                      then setitem (setitem (setitem (setitem MIMEMultipart_new
                             "From" (sender_email self)) "To" recipient_email)
                             "Subject" subject) "Cc" (join ", " (items cc))
                      else setitem (setitem (setitem MIMEMultipart_new
                             "From" (sender_email self)) "To" recipient_email)
                             "Subject" subject) part) /\
              payload message = part :: parts /\
              Forall (fun p => is_body_part p = false) parts).
  { destruct (truthy attachments).
    - apply attach_files_returns in H as (Hh & parts & Hp & Hf).
      exists parts. split; [exact Hh|]. split; [|exact Hf].
      rewrite Hp. now destruct (truthy cc).
    - unfold ret in H. inversion H; subst. exists [].
      split; [reflexivity|]. split; [now destruct (truthy cc) | constructor]. }
  destruct Hmessage as (parts & Hh & Hp & Hf).
  exists parts. split; [reflexivity|]. split; [|now split].
  rewrite Hh. unfold visible_headers, mime_headers.
  now destruct (truthy cc).
Qed.

(** A run of [compose] leaves the connection and the calls alone. *)
Lemma compose_frame (w : World) (self : GmailSender)
    (recipient_email subject message_body : string) (is_html : bool)
    (cc attachments : option (list string)) (s s' : state)
    (r : result MIMEMultipart) :
  compose w self recipient_email subject message_body is_html cc attachments s
    = (r, s') ->
  server s' = server s /\ sendmail_calls s' = sendmail_calls s.
Proof.
  unfold compose, bind, lift.
  destruct (MIMEText message_body (if is_html then "html" else "plain"))
    as [part|e].
  - destruct (truthy attachments).
    + apply attach_files_frame.
    + unfold ret. intros H. inversion H; subst. now split.
  - intros H. inversion H; subst. now split.
Qed.

(** On a console that accepts the lines of the attachments, [compose]
    returns for every body that has an encoding. *)
Lemma compose_accepted (w : World) (self : GmailSender)
    (recipient_email subject message_body : string) (is_html : bool)
    (cc attachments : option (list string)) (s : state) (part : MIMEPart) :
  reports_printable w (items attachments) ->
  MIMEText message_body (if is_html then "html" else "plain") = Return part ->
  exists parts lines,
    compose w self recipient_email subject message_body is_html cc attachments s
      = (Return {| headers :=
                     (mime_headers
                      ++ visible_headers self recipient_email subject cc)%list;
                   payload := part :: parts |},
         printed lines s) /\
    Forall2 (attachment_of w) (filter (readable w) (items attachments)) parts /\
    Forall2 (report_of w) (items attachments) lines.
Proof.
  intros Hconsole Hpart. unfold compose, bind, lift. rewrite Hpart.
  destruct (truthy attachments) eqn:Hatt.
  - match goal with
    | |- context [attach_files w ?m _ s] =>
        destruct (attach_files_accepted w (items attachments) Hconsole m s)
          as (parts & lines & Hrun & Hparts & Hlines)
    end.
    exists parts, lines. rewrite Hrun. split; [|now split].
    unfold visible_headers, mime_headers. now destruct (truthy cc).
  - rewrite (GmailSenderProofs.items_falsy _ Hatt).
    exists [], []. rewrite printed_empty. unfold ret.
    split; [|split; constructor].
    unfold visible_headers, mime_headers. now destruct (truthy cc).
Qed.

(** *** The try block and its handlers *)


(** A handler never returns True, and leaves the connection and the calls
    alone. *)
Lemma send_email_except_frame (w : World) (e : exception) (s s' : state)
    (r : result bool) :
  send_email_except w e s = (r, s') ->
  r <> Return true /\
  server s' = server s /\ sendmail_calls s' = sendmail_calls s.
Proof.
  unfold send_email_except.
  destruct (exc_class e); unfold bind, ret;
    repeat match goal with
           | |- context [print w ?line ?s0] =>
               let Hp := fresh "Hp" in
               destruct (print w line s0) as [[[]|?] ?] eqn:Hp;
               apply print_frame in Hp; destruct Hp
           end;
    intros Hrun; inversion Hrun; subst; (split; [discriminate|]); split; congruence.
Qed.

Ltac not_clean Hcompose :=
  let Hrun := fresh "Hrun" in
  intros Hrun; inversion Hrun; subst; clear Hrun;
  right; split; [eexists; reflexivity|]; split;
  [ let m := fresh "m" in
    let s0 := fresh "s0" in
    let Hc := fresh "Hc" in
    let Hclean := fresh "Hclean" in
    intros (m & s0 & Hc & Hclean);
    rewrite ?Hcompose in Hc; inversion Hc; subst;
    unfold run_clean in Hclean; decompose [and ex] Hclean; congruence
  | cbn [sendmail_calls] ].

(** How the [try] block ends: it returns True after a clean run, which
    has closed the connection, handed the message over once and printed the
    success line last; every other run raises, having handed the message
    over at most once. *)
Lemma send_email_try_cases (w : World) (self : GmailSender)
    (recipient_email subject message_body : string) (is_html : bool)
    (cc bcc attachments : option (list string)) (s s' : state)
    (r : result bool) :
  send_email_try w self recipient_email subject message_body is_html
    cc bcc attachments s = (r, s') ->
  (r = Return true /\
   exists message s1 data,
     compose w self recipient_email subject message_body is_html cc attachments s
       = (Return message, s1) /\
     run_clean w self recipient_email cc bcc message /\
     as_string w message = Return data /\
     server s' = Closed /\
     sendmail_calls s'
       = (sendmail_calls s
          ++ [(sender_email self, recipients recipient_email cc bcc, data)])%list /\
     last (stdout s') "" = success_line recipient_email)
  \/
  ((exists e, r = Raise e) /\
   ~ (exists message s1,
        compose w self recipient_email subject message_body is_html cc attachments s
          = (Return message, s1) /\
        run_clean w self recipient_email cc bcc message) /\
   (sendmail_calls s' = sendmail_calls s \/
    exists data,
      sendmail_calls s'
        = (sendmail_calls s
           ++ [(sender_email self, recipients recipient_email cc bcc, data)])%list)).
Proof.
  unfold send_email_try.
  change ("Connecting to " ++ SMTP_SERVER ++ ":"
          ++ NilZero.string_of_int (Z.to_int SMTP_PORT) ++ "...")
    with connecting_line.
  change ("✓ Email sent successfully to " ++ recipient_email)
    with (success_line recipient_email).
  unfold bind at 1.
  destruct (compose w self recipient_email subject message_body is_html
              cc attachments s) as [[message|e] s1] eqn:Hcompose.
  2: { intros Hrun. inversion Hrun; subst. right.
       split; [eexists; reflexivity|]. split.
       - intros (m & s0 & Hc & _). discriminate.
       - left. exact (proj2 (compose_frame _ _ _ _ _ _ _ _ _ _ _ Hcompose)). }
  destruct (compose_frame _ _ _ _ _ _ _ _ _ _ _ Hcompose) as [_ Hcalls].
  rewrite <- Hcalls.
  unfold bind, ret, lift, print, smtplib_SMTP, server_starttls, server_login,
    server_sendmail, server_quit, smtp_call.
  destruct (console w connecting_line) eqn:H1;
    [not_clean Hcompose; now left|].
  destruct (SMTP_connect w SMTP_SERVER SMTP_PORT) eqn:H2;
    [not_clean Hcompose; now left|].
  destruct (console w "Starting TLS encryption...") eqn:H3;
    [not_clean Hcompose; now left|].
  destruct (SMTP_starttls w) as [|e2 [|]] eqn:H4;
    [|not_clean Hcompose; now left|not_clean Hcompose; now left].
  destruct (console w "Logging in...") eqn:H5;
    [not_clean Hcompose; now left|].
  destruct (SMTP_login w (sender_email self) (password self)) as [|e3 [|]] eqn:H6;
    [|not_clean Hcompose; now left|not_clean Hcompose; now left].
  destruct (console w "Sending email...") eqn:H7;
    [not_clean Hcompose; now left|].
  destruct (as_string w message) as [data|e4] eqn:H8;
    [|not_clean Hcompose; now left].
  destruct (SMTP_sendmail w (sender_email self)
              (recipients recipient_email cc bcc) data) as [|e5 [|]] eqn:H9;
    [|not_clean Hcompose; right; now exists data
     |not_clean Hcompose; right; now exists data].
  destruct (SMTP_quit w) eqn:H10;
    [not_clean Hcompose; right; now exists data|].
  destruct (console w (success_line recipient_email)) eqn:H11;
    [not_clean Hcompose; right; now exists data|].
  intros Hrun. inversion Hrun; subst; clear Hrun.
  left. split; [reflexivity|]. exists message, s1, data.
  split; [reflexivity|]. split.
  - unfold run_clean. repeat split; try assumption. now exists data.
  - split; [exact H8|]. split; [reflexivity|]. split; [reflexivity|].
    cbn [stdout]. apply last_last.
Qed.


(** *** Claims about the [send] boundary *)




(** *** Claims about the composed message *)

(** C5, as stated, fails: an address that is given as bcc and is also the
    recipient is in the To header of the composed message. *)
Lemma bcc_address_in_To_header :
  exists message s1,
    fst (send_email accepting_world Scenarios.me "s@x.com" "Test" "Hello" false
           None (Some ["s@x.com"]) None initial_state) = Return true /\
    compose accepting_world Scenarios.me "s@x.com" "Test" "Hello" false None None
      initial_state = (Return message, s1) /\
    In "s@x.com" (items (Some ["s@x.com"])) /\
    In ("To", "s@x.com") (headers message) /\
    occurs_in "s@x.com" "s@x.com" = true.
Proof.
  do 2 eexists.
  split; [vm_compute; reflexivity|].
  split; [vm_compute; reflexivity|].
  split; [now left|]. split; [do 3 right; now left | reflexivity].
Qed.

Lemma get_all_Bcc (self : GmailSender) (recipient_email subject : string)
    (cc : option (list string)) :
  get_all "Bcc" (mime_headers ++ visible_headers self recipient_email subject cc) = [].
Proof. unfold visible_headers. destruct (truthy cc); reflexivity. Qed.

(** C5, amended: [compose] does not read the bcc list.  A composed message
    has no Bcc header, and an address occurs in one of its headers only
    when it occurs in the sender address, the recipient address, the subject
    or the joined cc addresses, or in one of the two fixed headers of a
    multipart message; so a bcc address is in a header only when it is also
    given in one of those roles.  Every bcc address is in the recipient
    list, and that list is the envelope of the one call of [sendmail] that a
    run makes; a run that returns True has made that call. *)
Theorem bcc_confined_to_envelope (w : World) (self : GmailSender)
    (recipient_email subject message_body : string) (is_html : bool)
    (cc bcc attachments : option (list string)) (s : state) :
  (forall message s1,
     compose w self recipient_email subject message_body is_html cc attachments s
       = (Return message, s1) ->
     get_all "Bcc" (headers message) = [] /\
     forall a name value,
       In (name, value) (headers message) -> occurs_in a value = true ->
       In (name, value) mime_headers \/
       occurs_in a (sender_email self) = true \/
       occurs_in a recipient_email = true \/
       occurs_in a subject = true \/
       occurs_in a (String.concat ", " (items cc)) = true) /\
  (forall a, In a (items bcc) -> In a (recipients recipient_email cc bcc)) /\
  (forall r s',
     send_email w self recipient_email subject message_body is_html
       cc bcc attachments s = (r, s') ->
     (sendmail_calls s' = sendmail_calls s \/
      exists data,
        sendmail_calls s' =
        (sendmail_calls s
         ++ [(sender_email self, recipients recipient_email cc bcc, data)])%list) /\
     (r = Return true ->
      exists data,
        sendmail_calls s' =
        (sendmail_calls s
         ++ [(sender_email self, recipients recipient_email cc bcc, data)])%list)).
Proof.
  split; [|split].
  - intros message s1 Hcompose.
    apply compose_returns in Hcompose as (part & parts & _ & Hheaders & _).
    rewrite Hheaders. split; [apply get_all_Bcc|].
    intros a name value Hin Hocc. apply in_app_or in Hin as [Hin|Hin]; [now left|].
    right. unfold visible_headers in Hin.
    destruct (truthy cc); simpl in Hin;
      repeat (destruct Hin as [Hin|Hin]; [inversion Hin; subst; tauto|]);
      contradiction.
  - intros a Ha. rewrite GmailSenderProofs.recipients_app.
    right. apply in_or_app. now right.
  - intros r s'. unfold send_email, try_except.
    destruct (send_email_try w self recipient_email subject message_body is_html
                cc bcc attachments s) as [r1 s1] eqn:Htry.
    destruct (send_email_try_cases _ _ _ _ _ _ _ _ _ _ _ _ Htry)
      as [(-> & message & s0 & data & _ & _ & _ & _ & Hcalls & _)
         | ((e & ->) & _ & Hcalls)].
    + intros H. inversion H; subst.
      split; [right|intros _]; now exists data.
    + intros H. apply send_email_except_frame in H as (Hr & _ & Hsame).
      rewrite Hsame. split; [exact Hcalls|]. intros Htrue. contradiction.
Qed.

(** C6, as stated, fails: a body with a character outside ASCII is not
    carried verbatim.  The payload of the text part of the message composed
    for the body [héllo] is the base64 text of its UTF-8 bytes. *)
Lemma compose_encodes_non_ascii_body :
  exists message s1,
    compose accepting_world Scenarios.me "r@x.com" "Test" "héllo" false None None
      initial_state = (Return message, s1) /\
    map part_payload (payload message) = ["aMOpbGxv" ++ newline] /\
    "aMOpbGxv" ++ newline <> "héllo".
Proof.
  do 2 eexists. split; [vm_compute; reflexivity|].
  split; [reflexivity | discriminate].
Qed.

(** C6, amended: a message that [compose] returns has exactly one text
    part, the first of its parts, of subtype [plain] or [html] as [is_html]
    says; every other part is an attachment.  A body of ASCII characters is
    carried verbatim (7bit, charset us-ascii); any other body is carried as
    the base64 text of its UTF-8 bytes (charset utf-8), from which the body
    can be decoded.  [compose] returns such a message for every body that
    UTF-8 can encode when the console accepts the lines of the attachments,
    and it raises for a body that UTF-8 cannot encode (a lone surrogate). *)
Theorem compose_body_part (w : World) (self : GmailSender)
    (recipient_email subject message_body : string) (is_html : bool)
    (cc attachments : option (list string)) (s : state) :
  (forall message s1,
     compose w self recipient_email subject message_body is_html cc attachments s
       = (Return message, s1) ->
     exists part parts,
       payload message = part :: parts /\
       is_body_part part = true /\
       subtype part = (if is_html then "html" else "plain") /\
       Forall (fun p => is_body_part p = false) parts /\
       (is_ascii message_body = true ->
        part_payload part = message_body /\
        get_all "Content-Type" (part_headers part)
          = ["text/" ++ (if is_html then "html" else "plain")
             ++ "; charset=" ++ quote ++ "us-ascii" ++ quote] /\
        get_all "Content-Transfer-Encoding" (part_headers part) = ["7bit"]) /\
       (is_ascii message_body = false ->
        utf8_valid message_body = true /\
        decodebytes (part_payload part) = Some message_body /\
        get_all "Content-Type" (part_headers part)
          = ["text/" ++ (if is_html then "html" else "plain")
             ++ "; charset=" ++ quote ++ "utf-8" ++ quote] /\
        get_all "Content-Transfer-Encoding" (part_headers part) = ["base64"])) /\
  (utf8_valid message_body = true -> reports_printable w (items attachments) ->
   exists message s1,
     compose w self recipient_email subject message_body is_html cc attachments s
       = (Return message, s1)) /\
  (utf8_valid message_body = false ->
   exists e,
     compose w self recipient_email subject message_body is_html cc attachments s
       = (Raise e, s)).
Proof.
  split; [|split].
  - intros message s1 Hcompose.
    apply compose_returns in Hcompose as (part & parts & Hpart & _ & Hpayload & Hparts).
    apply MIMEText_part in Hpart as (Hbody & Hsub & Hascii & Hutf8).
    exists part, parts. repeat split; try assumption; try (now apply Hascii);
      now apply Hutf8.
  - intros Hvalid Hconsole.
    destruct (MIMEText_returns message_body (if is_html then "html" else "plain") Hvalid)
      as (part & Hpart).
    destruct (compose_accepted w self recipient_email subject message_body is_html
                cc attachments s part Hconsole Hpart) as (parts & lines & Hrun & _).
    do 2 eexists. exact Hrun.
  - intros Hinvalid.
    destruct (MIMEText_raises message_body (if is_html then "html" else "plain") Hinvalid)
      as (e & Hraise).
    exists e. now apply compose_raises.
Qed.

(** *** Claims about attachments *)






(** *** What the composed message depends on *)







End GmailSenderIOProofs.

(** ** Further properties of gmail_sender.py with failing collaborators *)

Module GmailSenderIOExtras.
Import GmailSender Observations Observations2 Encodings Base64 GmailSenderIO.
Import ObservationsIO ScenariosIO GmailSenderIOProofs.

(** *** What the returned value says *)

Lemma send_email_except_returns (w : World) (e : exception) (s s' : state)
    (b : bool) :
  send_email_except w e s = (Return b, s') ->
  b = false /\ s' = printed (failure_report e) s.
Proof.
  unfold send_email_except, failure_report, classify.
  destruct (exc_class e); unfold bind, ret, print;
    repeat match goal with
           | |- context [console w ?line] => destruct (console w line)
           end;
    intros H; inversion H; subst; split; try reflexivity;
    unfold printed; cbn [stdout server sendmail_calls];
    rewrite <- ?app_assoc; reflexivity.
Qed.

Lemma last_app_nonempty (A : Type) (l l' : list A) (d : A) :
  l' <> [] -> last (l ++ l') d = last l' d.
Proof.
  intros Hne. destruct (exists_last Hne) as (init & x & ->).
  now rewrite app_assoc, !last_last.
Qed.

Lemma failure_report_last (e : exception) (recipient_email : string) :
  failure_report e <> [] /\
  last (failure_report e) "" <> success_line recipient_email.
Proof.
  unfold failure_report, success_line.
  destruct (classify e); split; cbn; discriminate.
Qed.

(** X7: what a returned value says, on any console and any server.  When
    [send_email] returns True, the message was composed and serialised,
    [sendmail] was called once with it and returned, and the connection is
    closed.  And the last line printed tells the returned value: it is the
    success line for the recipient exactly when the value is True. *)
Theorem last_line_tells_outcome (w : World) (self : GmailSender)
    (recipient_email subject message_body : string) (is_html : bool)
    (cc bcc attachments : option (list string)) (s s' : state) (b : bool) :
  send_email w self recipient_email subject message_body is_html
    cc bcc attachments s = (Return b, s') ->
  (b = true ->
   exists message s1 data,
     compose w self recipient_email subject message_body is_html cc attachments s
       = (Return message, s1) /\
     as_string w message = Return data /\
     SMTP_sendmail w (sender_email self) (recipients recipient_email cc bcc) data
       = Done /\
     sendmail_calls s'
       = (sendmail_calls s
          ++ [(sender_email self, recipients recipient_email cc bcc, data)])%list /\
     server s' = Closed) /\
  (b = true <-> last (stdout s') "" = success_line recipient_email).
Proof.
  unfold send_email, try_except.
  destruct (send_email_try w self recipient_email subject message_body is_html
              cc bcc attachments s) as [r s1] eqn:Htry.
  destruct (send_email_try_cases _ _ _ _ _ _ _ _ _ _ _ _ Htry)
    as [(-> & message & s0 & data & Hcompose & Hclean & Hdata & Hserver & Hcalls & Hlast)
       | ((e & ->) & _ & _)].
  - intros H. inversion H; subst. split; [|tauto].
    intros _. exists message, s0, data.
    destruct Hclean as (_ & _ & _ & _ & _ & _ & _ & (data' & Hdata' & Hsent) & _).
    assert (data' = data) by congruence. subst data'.
    repeat split; assumption.
  - intros H. apply send_email_except_returns in H as [-> ->].
    split; [discriminate|]. split; [discriminate|].
    destruct (failure_report_last e recipient_email) as [Hne Hlast].
    unfold printed. cbn [stdout]. rewrite last_app_nonempty by exact Hne.
    intros H. contradiction.
Qed.

Lemma last_line_tells_outcome_witness :
  exists s',
    send_email accepting_world Scenarios.me "r@x.com" "Test" "Hello" false
      None None None initial_state = (Return true, s') /\
    server s' = Closed /\
    last (stdout s') "" = success_line "r@x.com".
Proof.
  destruct (send_email accepting_world Scenarios.me "r@x.com" "Test" "Hello" false
              None None None initial_state) as [r s'] eqn:Hrun.
  assert (Hr : r = Return true) by (vm_compute in Hrun; now inversion Hrun).
  subst r. exists s'. split; [reflexivity|].
  destruct (last_line_tells_outcome _ _ _ _ _ _ _ _ _ _ _ _ Hrun) as [Htrue Hlast].
  destruct (Htrue eq_refl) as (message & s1 & data & _ & _ & _ & _ & Hserver).
  split; [exact Hserver | now apply Hlast].
Defined.

(** *** The exceptions of _attach_file *)

(** X9: [_attach_file] catches every failure to open or read the file.
    The only exception that can leave it is one that the console raises on
    a warning line, which the [except] clauses print outside any [try].
    When it returns, the message has the headers and the parts that it had,
    followed by the attachment part of the file when the file is readable,
    and by nothing when it is not. *)
Theorem attach_file_raises_only_from_print (w : World) (message : MIMEMultipart)
    (file_path : string) (s s' : state) (r : result MIMEMultipart) :
  _attach_file w message file_path s = (r, s') ->
  (forall e, r = Raise e ->
     exists line, is_warning line = true /\ console w line = Some e) /\
  (forall message', r = Return message' ->
     headers message' = headers message /\
     ((exists part,
         attachment_of w file_path part /\
         payload message' = (payload message ++ [part])%list) \/
      (unreadable w file_path = true /\ message' = message))).
Proof.
  unfold _attach_file, _attach_file_except, unreadable, readable.
  destruct (read_file w file_path) as [data|e0] eqn:Hread.
  - unfold print at 1. destruct (console w ("  Attached: " ++ basename file_path)).
    + destruct (exc_class e); unfold bind, ret, print;
        match goal with
        | |- context [console w ?line] => destruct (console w line) eqn:Hline
        end;
        intros H; inversion H; subst; split;
        try (intros ? Hr; discriminate Hr);
        try (intros e' Hr; inversion Hr; subst; eexists; split;
             [|exact Hline]; reflexivity);
        intros m' Hr; inversion Hr; subst; (split; [reflexivity|]); left;
        eexists; (split; [|reflexivity]); apply attachment_part; exact Hread.
    + intros H. inversion H; subst. split; [intros ? Hr; discriminate Hr|].
      intros m' Hr. inversion Hr; subst. split; [reflexivity|]. left.
      eexists. split; [|reflexivity]. apply attachment_part. exact Hread.
  - destruct (exc_class e0); unfold bind, ret, print;
      match goal with
      | |- context [console w ?line] => destruct (console w line) eqn:Hline
      end;
      intros H; inversion H; subst; split;
      try (intros ? Hr; discriminate Hr);
      try (intros e' Hr; inversion Hr; subst; eexists; split;
           [|exact Hline]; reflexivity);
      intros m' Hr; inversion Hr; subst; (split; [reflexivity|]); right;
      split; reflexivity.
Qed.

Lemma attach_file_raises_witness :
  exists line,
    is_warning line = true /\
    console ascii_world line
      = Some (mkException Exception
                "'ascii' codec can't encode character: ordinal not in range(128)").
Proof.
  apply (proj1 (attach_file_raises_only_from_print ascii_world MIMEMultipart_new
                  "/tmp/méssing.txt" initial_state initial_state
                  (Raise (mkException Exception
                     "'ascii' codec can't encode character: ordinal not in range(128)"))
                  eq_refl)
               _ eq_refl).
Defined.

(** *** The connection *)

Ltac open_case :=
  split;
  [ intros _; eexists; eexists; split; [reflexivity|];
    unfold connection_opened, quit_reached, socket_closed_on_error;
    repeat split; try assumption;
    let Hno := fresh "Hno" in
    intro Hno; decompose [and or ex] Hno; congruence
  | reflexivity ].

Ltac shut_case :=
  split;
  [ discriminate
  | let m := fresh "m" in
    let s0 := fresh "s0" in
    let Hc := fresh "Hc" in
    let Hopen := fresh "Hopen" in
    let Hquit := fresh "Hquit" in
    let Hshut := fresh "Hshut" in
    intros (m & s0 & Hc & Hopen & Hquit & Hshut); exfalso;
    inversion Hc; subst;
    unfold connection_opened, quit_reached, socket_closed_on_error in *;
    first
      [ solve [decompose [and] Hopen; congruence]
      | solve [apply Hquit; repeat split; try assumption; eauto]
      | solve [apply Hshut; split; [assumption|]; eauto 12] ] ].

(** X6: when [send_email] leaves the connection open.  Starting without a
    connection, a run of [send_email], whether it returns or raises, ends
    with the connection open exactly when it connected, did not get as far
    as [server.quit()], and was not stopped by a call that smtplib closes
    the socket for.  The script closes the connection nowhere but in the
    [try] block, after [sendmail]. *)
Theorem connection_left_open_iff (w : World) (self : GmailSender)
    (recipient_email subject message_body : string) (is_html : bool)
    (cc bcc attachments : option (list string)) (s s' : state)
    (r : result bool) :
  server s = NotConnected ->
  send_email w self recipient_email subject message_body is_html
    cc bcc attachments s = (r, s') ->
  (server s' = Connected <->
   exists message s1,
     compose w self recipient_email subject message_body is_html cc attachments s
       = (Return message, s1) /\
     connection_opened w /\
     ~ quit_reached w self (recipients recipient_email cc bcc) message /\
     ~ socket_closed_on_error w self (recipients recipient_email cc bcc) message).
Proof.
  intros Hstart. unfold send_email, try_except.
  destruct (send_email_try w self recipient_email subject message_body is_html
              cc bcc attachments s) as [r1 s1] eqn:Htry.
  assert (Hserver : server s' = server s1 -> server s1 = Connected <->
            exists message s0,
              compose w self recipient_email subject message_body is_html
                cc attachments s = (Return message, s0) /\
              connection_opened w /\
              ~ quit_reached w self (recipients recipient_email cc bcc) message /\
              ~ socket_closed_on_error w self (recipients recipient_email cc bcc)
                  message).
  { intros _. revert Htry. unfold send_email_try.
    change ("Connecting to " ++ SMTP_SERVER ++ ":"
            ++ NilZero.string_of_int (Z.to_int SMTP_PORT) ++ "...")
      with connecting_line.
    unfold bind at 1.
    destruct (compose w self recipient_email subject message_body is_html
                cc attachments s) as [[message|e] s0] eqn:Hcompose.
    2: { intros H. inversion H; subst.
         apply compose_frame in Hcompose as [Hsame _]. rewrite Hsame, Hstart.
         split; [discriminate|]. intros (m & t & Hc & _). discriminate. }
    apply compose_frame in Hcompose as [Hsame _]. rewrite Hstart in Hsame.
    unfold bind, ret, lift, print, smtplib_SMTP, server_starttls, server_login,
      server_sendmail, server_quit, smtp_call.
    destruct (console w connecting_line) eqn:H1;
      [intros H; inversion H; subst; rewrite Hsame; shut_case|].
    destruct (SMTP_connect w SMTP_SERVER SMTP_PORT) eqn:H2;
      [intros H; inversion H; subst; cbn [server]; rewrite Hsame; shut_case|].
    destruct (console w "Starting TLS encryption...") eqn:H3;
      [intros H; inversion H; subst; cbn [server]; open_case|].
    destruct (SMTP_starttls w) as [|e2 [|]] eqn:H4;
      [|intros H; inversion H; subst; cbn [server]; shut_case
       |intros H; inversion H; subst; cbn [server]; open_case].
    destruct (console w "Logging in...") eqn:H5;
      [intros H; inversion H; subst; cbn [server]; open_case|].
    destruct (SMTP_login w (sender_email self) (password self)) as [|e3 [|]] eqn:H6;
      [|intros H; inversion H; subst; cbn [server]; shut_case
       |intros H; inversion H; subst; cbn [server]; open_case].
    destruct (console w "Sending email...") eqn:H7;
      [intros H; inversion H; subst; cbn [server]; open_case|].
    destruct (as_string w message) as [data|e4] eqn:H8;
      [|intros H; inversion H; subst; cbn [server]; open_case].
    destruct (SMTP_sendmail w (sender_email self)
                (recipients recipient_email cc bcc) data) as [|e5 [|]] eqn:H9;
      [|intros H; inversion H; subst; cbn [server]; shut_case
       |intros H; inversion H; subst; cbn [server]; open_case].
    destruct (SMTP_quit w) eqn:H10;
      [intros H; inversion H; subst; cbn [server]; shut_case|].
    destruct (console w ("✓ Email sent successfully to " ++ recipient_email))
      eqn:H11;
      intros Hrun; inversion Hrun; subst; cbn [server]; shut_case. }
  destruct r1 as [b|e].
  - intros H. inversion H; subst. now apply Hserver.
  - intros H. apply send_email_except_frame in H as (_ & Hsame & _).
    rewrite Hsame. now apply Hserver.
Qed.

Lemma connection_left_open_witness :
  exists s',
    send_email ascii_rejecting_world Scenarios.me "r@x.com" "Test" "Hello" false
      None None None initial_state
    = (Raise (mkException Exception
                "'ascii' codec can't encode character: ordinal not in range(128)"),
       s') /\
    server s' = Connected.
Proof.
  eexists. split; [vm_compute; reflexivity|].
  apply (proj2 (connection_left_open_iff ascii_rejecting_world Scenarios.me
                  "r@x.com" "Test" "Hello" false None None None initial_state _ _
                  eq_refl eq_refl)).
  do 2 eexists. split; [vm_compute; reflexivity|].
  split; [split; reflexivity|].
  split.
  - intros (_ & _ & _ & Hlogin & _). discriminate Hlogin.
  - intros (_ & [(e & Htls) | (_ & _ & [(e & Hlogin) | (Hlogin & _)])]);
      discriminate.
Defined.

End GmailSenderIOExtras.
